(** * goodreads.py: feed extraction, cache gate and document merge

    A shallow embedding of [src/goodreads.py] and the properties of its
    record extractor, cache gate, list renderer and document merge engine.

    Conventions of the embedding.
    - A Python [str] is the list of its code points ([list N]); text files are
      modelled by their decoded content (universal newlines already applied),
      so a line ends with the single code point 10.
    - A [dict] is a [gmap]; [defaultdict(str)] is a [gmap] read with the
      default [[]].
    - Iterators shared between loops ([events], an open file) are modelled by
      the list of items still to be produced; a consumer returns the rest.
    - Exceptions are values of [exn] carried by [result].
    - Library code that is not part of the repository (ruamel.yaml,
      BeautifulSoup, [int], [float], [strptime], the HTTP client and the XML
      pull parser) enters as Section variables.
    - [str] of a [datetime] and [datetime.fromisoformat] are modelled on the
      ISO text; a snapshot file is modelled by the JSON document it holds.
    - A [float] is its bit pattern; [==] on floats, and on the books that
      hold them, is a function of its own, since a NaN is not equal to
      itself.
    - A path is a [pathlib] path on a POSIX system; a file is stored under
      the text of its path. *)

From Stdlib Require Import ZArith NArith List Ascii String Lia Bool.
From stdpp Require Import base decidable option list gmap.

Local Open Scope N_scope.

(** ** Python strings *)

Module PyStr.

Abbreviation str := (list N).

(** Code points of an ASCII literal. *)
Definition of_string (s : string) : str :=
  map N_of_ascii (list_ascii_of_string s).

Definition LF : N := 10.

(** [str.isspace] for one code point (CPython's [_PyUnicode_IsWhitespace]). *)
Definition isspace (c : N) : bool :=
  ((9 <=? c) && (c <=? 13)) || ((28 <=? c) && (c <=? 32))
  || (c =? 133) || (c =? 160) || (c =? 5760)
  || ((8192 <=? c) && (c <=? 8202))
  || (c =? 8232) || (c =? 8233) || (c =? 8239) || (c =? 8287)
  || (c =? 12288).

Fixpoint lstrip (s : str) : str :=
  match s with
  | c :: s' => if isspace c then lstrip s' else s
  | [] => []
  end.

Definition rstrip (s : str) : str := rev (lstrip (rev s)).

(** [s.strip()] *)
Definition strip (s : str) : str := rstrip (lstrip s).

Fixpoint str_eqb (a b : str) : bool :=
  match a, b with
  | [], [] => true
  | x :: a', y :: b' => (x =? y) && str_eqb a' b'
  | _, _ => false
  end.

Fixpoint startswith (p s : str) : bool :=
  match p, s with
  | [], _ => true
  | x :: p', y :: s' => (x =? y) && startswith p' s'
  | _ :: _, [] => false
  end.

(** [sub in s] *)
Fixpoint contains (sub s : str) : bool :=
  startswith sub s
  || match s with
     | [] => false
     | _ :: s' => contains sub s'
     end.

(** The lines a text file yields when iterated: each keeps its newline,
    the last one may lack it. *)
Fixpoint lines (s : str) : list str :=
  match s with
  | [] => []
  | c :: s' =>
      if c =? LF then [c] :: lines s'
      else match lines s' with
           | [] => [[c]]
           | l :: ls => (c :: l) :: ls
           end
  end.

(** [sep.join(parts)] *)
Fixpoint join (sep : str) (parts : list str) : str :=
  match parts with
  | [] => []
  | [p] => p
  | p :: ps => p ++ sep ++ join sep ps
  end.

(** Truthiness of a string. *)
Definition nonempty (s : str) : bool :=
  match s with [] => false | _ => true end.

(** A text that is empty or ends with a newline: what follows it starts a
    new line. *)
Definition closed (s : str) : Prop := s = [] \/ last s = Some LF.

End PyStr.
Import PyStr.

(** ** Paths *)

(** [pathlib.PurePosixPath]: a path is kept as its root and the components
    after it. A text is normalised when a path is made of it: empty
    components and components that are a single dot are dropped, so repeated
    and trailing slashes disappear. Files are stored under the text of their
    path, which is how the file system tells them apart when no component is
    [..] or a symbolic link. *)
Module PyPath.

Definition sep : N := 47.
Definition dot : N := 46.

Record Path : Set := { root : str; parts : list str }.

(** [s.split(sep)] *)
Fixpoint split (s : str) : list str :=
  match s with
  | [] => [[]]
  | c :: s' =>
      if c =? sep then [] :: split s'
      else match split s' with
           | [] => [[c]]
           | p :: ps => (c :: p) :: ps
           end
  end.

(** [part.lstrip(sep)] *)
Fixpoint lstrip_sep (s : str) : str :=
  match s with
  | c :: s' => if c =? sep then lstrip_sep s' else s
  | [] => []
  end.

(** [splitroot]: exactly two leading slashes are a root of their own, any
    other number of them is the root [/]. *)
Definition splitroot (part : str) : str * str :=
  match part with
  | c :: _ =>
      if c =? sep then
        let stripped_part := lstrip_sep part in
        if (length part - length stripped_part =? 2)%nat
        then ([sep; sep], stripped_part)
        else ([sep], stripped_part)
      else ([], part)
  | [] => ([], [])
  end.

(** A component that is kept: [x and x != '.']. *)
Definition kept (x : str) : bool := nonempty x && negb (str_eqb x [dot]).

(** [Path(text)] *)
Definition parse (text : str) : Path :=
  let '(root, rel) := splitroot text in
  {| root := root; parts := List.filter kept (split rel) |}.

(** [path / text]: a [text] with a root replaces [path]. *)
Definition joinpath (path : Path) (text : str) : Path :=
  let other := parse text in
  if nonempty (root other) then other
  else {| root := root path; parts := parts path ++ parts other |}.

(** [str(path)] *)
Definition to_str (path : Path) : str :=
  match root path, parts path with
  | [], [] => [dot]
  | root, parts => root ++ join [sep] parts
  end.

(** [path.name]: the last component, empty when there is none. *)
Definition name (path : Path) : str := default [] (last (parts path)).

End PyPath.

(** ** Iterators and exceptions *)

(** [itertools.takewhile(p, it)] drained by its consumer: the items yielded
    and what is left in [it]. The first item failing [p] is consumed and
    dropped, as the iterator protocol has it. *)
Fixpoint takewhile {A} (p : A -> bool) (it : list A) : list A * list A :=
  match it with
  | [] => ([], [])
  | x :: it' =>
      if p x then let (taken, rest) := takewhile p it' in (x :: taken, rest)
      else ([], it')
  end.

Inductive exn : Set :=
| ValueError | TypeError | AttributeError
| ScannerError | ParserError | ComposerError | ConstructorError | ReaderError
| TransportError | SAXParseException.

Inductive result (A : Type) : Type :=
| Ok (a : A)
| Raise (e : exn).
Arguments Ok {A} a.
Arguments Raise {A} e.

#[global] Instance result_bind : MBind result := fun A B k r =>
  match r with
  | Ok a => k a
  | Raise e => Raise e
  end.

(** ** Document merge engine *)

Module Merge.

Definition separator : str := Eval cbv in of_string "----" ++ [LF].
Definition document_end : str := Eval cbv in of_string "..." ++ [LF].
Definition dashes : str := Eval cbv in of_string "---".

Section Engine.
Context {K V : Type} `{Countable K}.

(** A document loaded from YAML: a mapping, or anything else. *)
Inductive yaml_doc : Type :=
| YDict (m : gmap K V)
| YOther.

(** What [first(yaml.load_all(...))] comes to: the first document, [None]
    when the stream holds no document, or the exception raised on the way. *)
Inductive load_outcome : Type :=
| Loaded (doc : option yaml_doc)
| Raised (e : exn).

(** ruamel.yaml, as configured by [make_yaml_parser]:
    [first(yaml.load_all(io.StringIO(text)))] and the text that
    [yaml.dump(data, stream)] writes. *)
Variable yaml_load_first : str -> load_outcome.
Variable yaml_dump : gmap K V -> str.

(** [except (ValueError, ruamel.yaml.scanner.ScannerError)] *)
Definition caught (e : exn) : bool :=
  match e with
  | ValueError | ScannerError => true
  | _ => false
  end.

(** The text handed to the loader: the lines before the first document end,
    joined with newlines although each still has its own. *)
Definition header_text (content : str) : str :=
  join [LF]
    (fst (takewhile (fun line => negb (str_eqb line document_end))
            (lines content))).

Definition extract_yaml_doc (content : str) : result (gmap K V) :=
  match yaml_load_first (header_text content) with
  | Raised e => if caught e then Ok ∅ else Raise e
  | Loaded (Some (YDict m)) => Ok m
  | Loaded _ => Ok ∅
  end.

(** [stream] is what the file object still holds after [takewhile] has
    drawn the separator line from it. *)
Definition extract_file_text (all_text : str) : str :=
  if negb (contains separator all_text) then all_text
  else
    let '(markers, stream) :=
      takewhile (fun line => negb (str_eqb line separator))
        (lines all_text) in
    strip (concat stream).

(** [previous_header | data] *)
Definition dict_or (previous_header data : gmap K V) : gmap K V :=
  data ∪ previous_header.

(** What the four [print] calls and [yaml.dump] write. *)
Definition document (data : gmap K V) (markers text : str) : str :=
  yaml_dump data
  ++ dashes ++ [LF; LF]
  ++ markers ++ [LF; LF]
  ++ separator ++ [LF]
  ++ text ++ [LF].

(** The first block of [save_file]: the previous header and text of [path]. *)
Definition previous (path : str) (fs : gmap str str)
  : result (gmap K V * str) :=
  match fs !! path with
  | Some content =>
      previous_header ← extract_yaml_doc content;
      Ok (previous_header, extract_file_text content)
  | None => Ok (∅, [])
  end.

Definition save_file (data : gmap K V) (markers : str) (path : str)
    (fs : gmap str str) : result (gmap str str) :=
  prev ← previous path fs;
  let data := dict_or (fst prev) data in
  Ok (<[path := document data markers (snd prev)]> fs).

End Engine.

(** The body of a document, by cases on its content: the text after the
    first separator line, stripped; or the whole content when the separator
    text does not occur in it. [pre] is a run of whole lines, none of them
    the separator. *)
Inductive stripped_body : str -> str -> Prop :=
| body_after_separator (pre post : str) :
    closed pre -> separator ∉ lines pre ->
    stripped_body (pre ++ separator ++ post) (strip post)
| body_whole (content : str) :
    contains separator content = false ->
    stripped_body content content.

End Merge.

(** ** [datetime] values and their ISO text *)

Module Datetime.

(** A [datetime.datetime]; [tzinfo] is the fixed UTC offset of a
    [datetime.timezone], in microseconds. *)
Record datetime : Set := {
  year : N; month : N; day : N;
  hour : N; minute : N; second : N; microsecond : N;
  tzinfo : option Z
}.

Definition is_leap (y : N) : bool :=
  (y mod 4 =? 0) && (negb (y mod 100 =? 0) || (y mod 400 =? 0)).

Definition days_in_month (y m : N) : N :=
  if m =? 2 then (if is_leap y then 29 else 28)
  else if (m =? 4) || (m =? 6) || (m =? 9) || (m =? 11) then 30
  else 31.

Definition day_us : Z := 86400000000.

(** The range checks of the [datetime] and [timezone] constructors. *)
Definition valid (d : datetime) : bool :=
  (1 <=? year d) && (year d <=? 9999)
  && (1 <=? month d) && (month d <=? 12)
  && (1 <=? day d) && (day d <=? days_in_month (year d) (month d))
  && (hour d <? 24) && (minute d <? 60) && (second d <? 60)
  && (microsecond d <? 1000000)
  && match tzinfo d with
     | None => true
     | Some off => ((- day_us <? off) && (off <? day_us))%Z
     end.

Definition digit (d : N) : N := 48 + d.

(** ["%0<width>d" % n] for [n < 10 ^ width], which the ranges checked by
    [valid] guarantee wherever it is used. *)
Fixpoint zfill (width : nat) (n : N) : str :=
  match width with
  | O => []
  | S w => zfill w (n / 10) ++ [digit (n mod 10)]
  end.

Fixpoint decimal_fuel (fuel : nat) (n : N) : str :=
  match fuel with
  | O => []
  | S f =>
      if n <? 10 then [digit n]
      else decimal_fuel f (n / 10) ++ [digit (n mod 10)]
  end.

(** [str(n)] for a natural number. *)
Definition decimal (n : N) : str :=
  decimal_fuel (S (N.to_nat (N.log2 n))) n.

Definition colon : N := 58.
Definition hyphen : N := 45.
Definition plus : N := 43.
Definition dot : N := 46.
Definition space : N := 32.

(** [d.date().isoformat()] *)
Definition date_isoformat (d : datetime) : str :=
  zfill 4 (year d) ++ [hyphen] ++ zfill 2 (month d) ++ [hyphen]
  ++ zfill 2 (day d).

(** [_format_offset]: [+HH:MM], with [:SS] and [.ffffff] only when they are
    not zero. *)
Definition format_offset (tz : option Z) : str :=
  match tz with
  | None => []
  | Some off =>
      let a := Z.to_N (Z.abs off) in
      let hh := a / 3600000000 in
      let mm := (a / 60000000) mod 60 in
      let ss := (a / 1000000) mod 60 in
      let us := a mod 1000000 in
      [if (off <? 0)%Z then hyphen else plus]
      ++ zfill 2 hh ++ [colon] ++ zfill 2 mm
      ++ (if (ss =? 0) && (us =? 0) then []
          else [colon] ++ zfill 2 ss
               ++ (if us =? 0 then [] else [dot] ++ zfill 6 us))
  end.

(** [d.isoformat(sep)] with the default [timespec='auto']. *)
Definition isoformat (sep : N) (d : datetime) : str :=
  date_isoformat d ++ [sep]
  ++ zfill 2 (hour d) ++ [colon] ++ zfill 2 (minute d) ++ [colon]
  ++ zfill 2 (second d)
  ++ (if microsecond d =? 0 then [] else [dot] ++ zfill 6 (microsecond d))
  ++ format_offset (tzinfo d).

(** [d.isoformat(' ', 'minutes')] *)
Definition isoformat_minutes (d : datetime) : str :=
  date_isoformat d ++ [space]
  ++ zfill 2 (hour d) ++ [colon] ++ zfill 2 (minute d)
  ++ format_offset (tzinfo d).

(** [str(d)] *)
Definition to_str (d : datetime) : str := isoformat space d.





Definition is_digit (c : N) : bool := (48 <=? c) && (c <=? 57).

Fixpoint digits_value (acc : N) (s : str) : option N :=
  match s with
  | [] => Some acc
  | c :: s' =>
      if is_digit c then digits_value (10 * acc + (c - 48)) s' else None
  end.

(** [int(s)] on a slice that must consist of decimal digits. *)
Definition int_digits (s : str) : option N :=
  match s with
  | [] => None
  | _ => digits_value 0 s
  end.

(** [s[i:j]] *)
Definition slice (i j : nat) (s : str) : str := take (j - i) (drop i s).

Definition expect (c : N) (i : nat) (s : str) : option unit :=
  match s !! i with
  | Some c' => if c' =? c then Some tt else None
  | None => None
  end.

(** [_parse_isoformat_date] on the first ten characters. *)
Definition parse_isoformat_date (dstr : str) : option (N * N * N) :=
  y ← int_digits (slice 0 4 dstr);
  _ ← expect hyphen 4 dstr;
  m ← int_digits (slice 5 7 dstr);
  _ ← expect hyphen 7 dstr;
  d ← int_digits (slice 8 10 dstr);
  Some (y, m, d).

(** The fraction of [HH:MM:SS.fff[fff]]: three or six digits. *)
Definition parse_fraction (s : str) : option N :=
  match s with
  | [] => Some 0
  | c :: f =>
      if c =? dot then
        match length f with
        | 3%nat => v ← int_digits f; Some (v * 1000)
        | 6%nat => int_digits f
        | _ => None
        end
      else None
  end.

(** A component of two digits at the head of [s]; a shorter text is an
    incomplete component. *)
Definition two_digits (s : str) : option N :=
  match s with
  | a :: b :: _ => int_digits [a; b]
  | _ => None
  end.

(** [_parse_hh_mm_ss_ff]: [HH[:MM[:SS[.fff[fff]]]]]. *)
Definition parse_hh_mm_ss_ff (tstr : str) : option (N * N * N * N) :=
  hh ← two_digits tstr;
  match drop 2 tstr with
  | [] => Some (hh, 0, 0, 0)
  | c1 :: r1 =>
      if negb (c1 =? colon) then None else
      mm ← two_digits r1;
      match drop 2 r1 with
      | [] => Some (hh, mm, 0, 0)
      | c2 :: r2 =>
          if negb (c2 =? colon) then None else
          ss ← two_digits r2;
          us ← parse_fraction (drop 2 r2);
          Some (hh, mm, ss, us)
      end
  end.

(** [s.find(c)], as the index of the first occurrence. *)
Fixpoint find (c : N) (s : str) : option nat :=
  match s with
  | [] => None
  | x :: s' => if x =? c then Some O else S <$> find c s'
  end.

(** [_parse_isoformat_time]: the time of day and the optional offset, which
    starts at the first [-] or, when there is none, at the first [+]. *)
Definition parse_isoformat_time (tstr : str)
  : option (N * N * N * N * option Z) :=
  let tz_pos :=
    match find hyphen tstr with
    | Some i => Some i
    | None => find plus tstr
    end in
  match tz_pos with
  | None => t ← parse_hh_mm_ss_ff tstr; Some (t, None)
  | Some i =>
      t ← parse_hh_mm_ss_ff (take i tstr);
      let tzstr := drop (S i) tstr in
      if negb (bool_decide (length tzstr ∈ [5; 8; 15]%nat)) then None else
      o ← parse_hh_mm_ss_ff tzstr;
      let '(oh, om, os, ou) := o in
      let td :=
        Z.of_N (((oh * 60 + om) * 60 + os) * 1000000 + ou) in
      let sign := if bool_decide (tstr !! i = Some hyphen) then (-1)%Z else 1%Z in
      Some (t, Some (sign * td)%Z)
  end.

(** [datetime.fromisoformat] as Python 3.10 has it, which reads the texts
    [isoformat] writes: the date, one separator character, the time and the
    offset; [None] stands for [ValueError]. Later versions read more texts
    (the basic format, a [Z] for the offset); no snapshot written by
    [set_cached] holds one. *)
Definition fromisoformat (date_string : str) : option datetime :=
  ymd ← parse_isoformat_date (slice 0 10 date_string);
  let '(y, m, d) := ymd in
  t ← match drop 11 date_string with
      | [] => Some (0, 0, 0, 0, None)
      | tstr => parse_isoformat_time tstr
      end;
  let '(hh, mm, ss, us, tz) := t in
  let r := {| year := y; month := m; day := d; hour := hh; minute := mm;
              second := ss; microsecond := us; tzinfo := tz |} in
  if valid r then Some r else None.

(** [_days_before_year] and [_days_before_month]. *)
Definition days_before_year (y : N) : N :=
  let y := y - 1 in y * 365 + y / 4 - y / 100 + y / 400.

Fixpoint days_before_month_upto (y : N) (m : nat) : N :=
  match m with
  | O => 0
  | S m' => days_before_month_upto y m' + days_in_month y (N.of_nat m)
  end.

Definition days_before_month (y m : N) : N :=
  days_before_month_upto y (N.to_nat (m - 1)).

(** [d.toordinal()] *)
Definition toordinal (d : datetime) : N :=
  days_before_year (year d) + days_before_month (year d) (month d) + day d.

(** The microseconds that separate [d], read on its own clock, from the start
    of day 0. *)
Definition wall_us (d : datetime) : Z :=
  Z.of_N ((((toordinal d * 24 + hour d) * 60 + minute d) * 60 + second d)
          * 1000000 + microsecond d).

(** [a == b]: with the same offset, or none on both sides, the fields are
    compared; a [datetime] with an offset is never equal to one without;
    two different offsets compare the instants. *)
Definition equal (a b : datetime) : bool :=
  if bool_decide (tzinfo a = tzinfo b) then
    (year a =? year b) && (month a =? month b) && (day a =? day b)
    && (hour a =? hour b) && (minute a =? minute b)
    && (second a =? second b) && (microsecond a =? microsecond b)
  else
    match tzinfo a, tzinfo b with
    | Some myoff, Some otoff => (wall_us a - myoff =? wall_us b - otoff)%Z
    | _, _ => false
    end.

End Datetime.

(** ** Books *)

Module Book.

(** A Python [float], given by its IEEE 754 binary64 bit pattern; no
    arithmetic is done on it. *)
Record float : Set := { bits : N }.

(** A NaN: the exponent field is all ones and the fraction is not zero. *)
Definition is_nan (f : float) : bool :=
  ((bits f / 2 ^ 52) mod 2 ^ 11 =? 2047) && negb (bits f mod 2 ^ 52 =? 0).

(** [float('nan')], the quiet NaN without sign. *)
Definition nan : float := {| bits := 9221120237041090560 |}.

Definition is_zero (f : float) : bool :=
  (bits f =? 0) || (bits f =? 9223372036854775808).

(** [a == b] on floats: a NaN is equal to nothing, itself included, and the
    two zeros are equal. *)
Definition float_eq (a b : float) : bool :=
  negb (is_nan a) && negb (is_nan b)
  && ((bits a =? bits b) || (is_zero a && is_zero b)).

(** The dataclass [Book], with the field types [from_goodreads] gives. *)
Record Book : Set := {
  title : str;
  url : str;
  book_id : str;
  description : str;
  pages : option Z;
  author : str;
  isbn : option str;
  read_date : option Datetime.datetime;
  rating : option float;
  year : option Z
}.



(** [a == b] on optional values: [None] is equal to [None] only. *)
Definition opt_eq {A} (cmp : A -> A -> bool) (a b : option A) : bool :=
  match a, b with
  | Some x, Some y => cmp x y
  | None, None => true
  | _, _ => false
  end.

(** The [__eq__] that [dataclass] generates: the tuples of the fields are
    compared. A tuple takes two items for equal when they are the same
    object or compare equal; the two books here share no [float] object, as
    a book and its copy read from a file do not. *)
Definition equal (a b : Book) : bool :=
  str_eqb (title a) (title b)
  && str_eqb (url a) (url b)
  && str_eqb (book_id a) (book_id b)
  && str_eqb (description a) (description b)
  && opt_eq Z.eqb (pages a) (pages b)
  && str_eqb (author a) (author b)
  && opt_eq str_eqb (isbn a) (isbn b)
  && opt_eq Datetime.equal (read_date a) (read_date b)
  && opt_eq float_eq (rating a) (rating b)
  && opt_eq Z.eqb (year a) (year b).


(** [s.split(delimiter, 1)[0]] *)
Fixpoint split_head (delimiter : N) (s : str) : str :=
  match s with
  | [] => []
  | c :: s' => if c =? delimiter then [] else c :: split_head delimiter s'
  end.

(** [str.maketrans({":": "", "/": "-", "\\": ""})] applied to one character. *)
Definition table (c : N) : str :=
  if c =? 58 then []
  else if c =? 47 then [45]
  else if c =? 92 then []
  else [c].

(** [s.translate(table)] *)
Definition translate (s : str) : str := flat_map table s.

(** The property [Book.name]. *)
Definition name (b : Book) : str :=
  let name := title b in
  let name := fold_left (fun name delimiter => split_head delimiter name)
                [58; 40] name in
  strip (translate name).

End Book.

(** ** Record extractor *)

Module Extract.

(** The event kinds of [xml.dom.pulldom]. *)
Inductive status : Set :=
| START_ELEMENT | END_ELEMENT | COMMENT | START_DOCUMENT | END_DOCUMENT
| PROCESSING_INSTRUCTION | IGNORABLE_WHITESPACE | CHARACTERS.

#[global] Instance status_eq_dec : EqDecision status.
Proof. solve_decision. Defined.

(** [Event]: [name] is the node's [nodeName], [value] its [nodeValue]. *)
Record Event : Set := { ev_status : status; name : str; value : str }.

Definition is_text (e : Event) : bool := bool_decide (ev_status e = CHARACTERS).
Definition is_start (e : Event) : bool := bool_decide (ev_status e = START_ELEMENT).
Definition is_end (e : Event) : bool := bool_decide (ev_status e = END_ELEMENT).

Definition item_tag : str := Eval cbv in of_string "item".
Definition channel_tag : str := Eval cbv in of_string "channel".
Definition book_id_key : str := Eval cbv in of_string "book_id".

(** [first(e for e in events if p(e))]: every event up to and including the
    first one satisfying [p] is consumed. *)
Fixpoint first_such {A} (p : A -> bool) (events : list A)
  : option A * list A :=
  match events with
  | [] => (None, [])
  | e :: rest => if p e then (Some e, rest) else first_such p rest
  end.

(** A [defaultdict(str)]; the key [None] is the value [current_name] has
    outside every element. *)
Abbreviation item_dict := (gmap (option str) str).

(** [item[key]] *)
Definition getitem (item : item_dict) (key : option str) : str :=
  default [] (item !! key).

(** Truthiness of [current_name]. *)
Definition truthy (current_name : option str) : bool :=
  match current_name with
  | Some (_ :: _) => true
  | _ => false
  end.

Section Extractor.

(** [BeautifulSoup(markup, "html.parser").text] *)
Variable html_text : str -> str.
(** [int], [float] and [datetime.strptime(_, "%a, %d %b %Y %H:%M:%S %z")];
    [None] stands for the [ValueError] they raise. *)
Variable int : str -> option Z.
Variable float : str -> option Book.float.
Variable strptime : str -> option Datetime.datetime.

Definition to_date (text : str) : option Datetime.datetime := strptime text.
Definition to_int (text : str) : option Z := int text.
Definition to_float (text : str) : option Book.float := float text.

(** One turn of the loop body of [parse_item]. *)
Definition parse_item_step (st : option str * item_dict) (event : Event)
  : option str * item_dict :=
  let '(current_name, item) := st in
  if is_start event then (Some (name event), item)
  else if is_text event && truthy current_name then
    (current_name,
     <[current_name := getitem item current_name ++ value event]> item)
  else if is_end event then
    (None,
     <[current_name := html_text (strip (getitem item current_name))]> item)
  else st.

(** [parse_item(events)]: the item and the events left in [events]. *)
Definition parse_item (events : list Event) : item_dict * list Event :=
  let '(_, events) :=
    first_such (fun e => str_eqb (name e) item_tag && is_start e) events in
  let '(body, events) :=
    takewhile (fun e => negb (str_eqb (name e) item_tag)) events in
  (snd (fold_left parse_item_step body (None, ∅)), events).

(** [item.get(key)] read as a string: absent and empty are both falsy. *)
Definition get (item : item_dict) (key : str) : str :=
  default [] (item !! Some key).

Definition or_else {A} (a b : option A) : option A :=
  match a with
  | Some _ => a
  | None => b
  end.

Definition from_goodreads (entry : item_dict) : Book.Book :=
  let field (key : string) := getitem entry (Some (of_string key)) in
  {| Book.title := field "title"%string;
     Book.url := field "link"%string;
     Book.book_id := field "book_id"%string;
     Book.pages := to_int (field "num_pages"%string);
     Book.author := field "author_name"%string;
     Book.isbn :=
       if nonempty (strip (field "isbn"%string)) then Some (strip (field "isbn"%string))
       else None;
     Book.read_date :=
       or_else (to_date (field "pubDate"%string))
         (or_else (to_date (field "user_date_added"%string))
            (to_date (field "user_date_created"%string)));
     Book.rating := to_float (field "average_rating"%string);
     Book.year := to_int (field "book_published"%string);
     Book.description := field "book_description"%string |}.

(** [parse_list] past the XML parser: the outer loop draws one event from
    [events], stops on the end of [channel], and otherwise hands the same
    iterator to [parse_item]. [fuel] bounds the number of turns. *)
Fixpoint parse_list_loop (fuel : nat) (events : list Event)
  : list Book.Book :=
  match fuel with
  | O => []
  | S fuel =>
      match events with
      | [] => []
      | event :: events =>
          if is_end event && str_eqb (name event) channel_tag then []
          else
            let '(item, events) := parse_item events in
            if negb (nonempty (get item book_id_key)) then
              parse_list_loop fuel events
            else from_goodreads item :: parse_list_loop fuel events
      end
  end.

(** Every turn consumes an event, so [length events] turns suffice. *)
Definition parse_list (events : list Event) : list Book.Book :=
  parse_list_loop (length events) events.

End Extractor.

End Extract.

(** ** Python values and JSON documents *)

Module Json.

#[local] Unset Elimination Schemes.
(** A JSON document, as [json.load] reads it and [json.dump] writes it. A
    number with a fraction or an exponent, [Infinity], [-Infinity] and [NaN]
    are kept as the [float] they are read as. *)
Inductive json : Set :=
| JNull
| JBool (b : bool)
| JInt (z : Z)
| JFloat (f : Book.float)
| JStr (s : str)
| JArr (items : list json)
| JObj (members : list (str * json)).
#[local] Set Elimination Schemes.

(** The Python values that occur as fields of a [Book] or as values of a
    loaded JSON object; arrays and objects nested in an object are kept as
    they are. *)
Inductive pyval : Set :=
| PNone
| PBool (b : bool)
| PInt (z : Z)
| PFloat (f : Book.float)
| PStr (s : str)
| PDatetime (d : Datetime.datetime)
| PJson (j : json).

Definition of_json (j : json) : pyval :=
  match j with
  | JNull => PNone
  | JBool b => PBool b
  | JInt z => PInt z
  | JFloat f => PFloat f
  | JStr s => PStr s
  | _ => PJson j
  end.

(** [bool(v)] *)
Definition truthy (v : pyval) : bool :=
  match v with
  | PNone => false
  | PBool b => b
  | PInt z => negb (z =? 0)%Z
  | PFloat f =>
      negb ((Book.bits f =? 0) || (Book.bits f =? 9223372036854775808))
  | PStr s => nonempty s
  | PDatetime _ => true
  | PJson (JArr []) | PJson (JObj []) => false
  | PJson _ => true
  end.

(** The [float] read from the text written for [f]: [float.__repr__] is
    read back as the same [float], while every NaN is written as [NaN], which
    is read as the one NaN of the decoder, without sign. *)
Definition json_float (f : Book.float) : Book.float :=
  if Book.is_nan f then Book.nan else f.

(** The encoder of [json.dump(_, default=str)] on a field value: what the
    encoder does not know, a [datetime], goes through [str]. *)
Definition encode (v : pyval) : json :=
  match v with
  | PNone => JNull
  | PBool b => JBool b
  | PInt z => JInt z
  | PFloat f => JFloat (json_float f)
  | PStr s => JStr s
  | PDatetime d => JStr (Datetime.to_str d)
  | PJson j => j
  end.

Definition opt {A} (f : A -> pyval) (o : option A) : pyval :=
  match o with
  | Some a => f a
  | None => PNone
  end.

Definition k_title : str := Eval cbv in of_string "title".
Definition k_url : str := Eval cbv in of_string "url".
Definition k_book_id : str := Eval cbv in of_string "book_id".
Definition k_description : str := Eval cbv in of_string "description".
Definition k_pages : str := Eval cbv in of_string "pages".
Definition k_author : str := Eval cbv in of_string "author".
Definition k_isbn : str := Eval cbv in of_string "isbn".
Definition k_read_date : str := Eval cbv in of_string "read_date".
Definition k_rating : str := Eval cbv in of_string "rating".
Definition k_year : str := Eval cbv in of_string "year".

(** [dataclasses.asdict(book)], in field order. *)
Definition asdict (b : Book.Book) : list (str * pyval) :=
  [ (k_title, PStr (Book.title b));
    (k_url, PStr (Book.url b));
    (k_book_id, PStr (Book.book_id b));
    (k_description, PStr (Book.description b));
    (k_pages, opt PInt (Book.pages b));
    (k_author, PStr (Book.author b));
    (k_isbn, opt PStr (Book.isbn b));
    (k_read_date, opt PDatetime (Book.read_date b));
    (k_rating, opt PFloat (Book.rating b));
    (k_year, opt PInt (Book.year b)) ].

(** The [dict] a JSON object loads to: a repeated name keeps its last value. *)
Definition dict_of (members : list (str * json)) : gmap str pyval :=
  fold_left (fun d kv => <[kv.1 := of_json kv.2]> d) members ∅.


End Json.

(** ** Cache gate *)

Module Cache.
Import Json.

#[global] Instance result_ret : MRet result := fun A a => Ok a.

(** [json_deserializer], the [object_hook] of [json.load]. *)
Definition json_deserializer (data : gmap str pyval)
  : result (gmap str pyval) :=
  match data !! k_read_date with
  | Some date =>
      if truthy date then
        match date with
        | PStr s =>
            match Datetime.fromisoformat s with
            | Some d => Ok (<[k_read_date := PDatetime d]> data)
            | None => Raise ValueError
            end
        | _ => Raise TypeError
        end
      else Ok data
  | None => Ok data
  end.

Definition as_str (v : pyval) : result str :=
  match v with PStr s => Ok s | _ => Raise TypeError end.
Definition as_opt_str (v : pyval) : result (option str) :=
  match v with PStr s => Ok (Some s) | PNone => Ok None | _ => Raise TypeError end.
Definition as_opt_int (v : pyval) : result (option Z) :=
  match v with PInt z => Ok (Some z) | PNone => Ok None | _ => Raise TypeError end.
Definition as_opt_float (v : pyval) : result (option Book.float) :=
  match v with PFloat f => Ok (Some f) | PNone => Ok None | _ => Raise TypeError end.
Definition as_opt_datetime (v : pyval) : result (option Datetime.datetime) :=
  match v with PDatetime d => Ok (Some d) | PNone => Ok None | _ => Raise TypeError end.

Definition keyword (book : gmap str pyval) (key : str) : result pyval :=
  match book !! key with
  | Some v => Ok v
  | None => Raise TypeError
  end.

(** [Book] called with the entries of [book] as keywords: they must be the
    ten fields, else [TypeError].
    [Book] is typed here as [from_goodreads] builds it, so a value of another
    type, which Python would store unchecked, is outside the model and
    reported as [TypeError] too. *)
Definition make_book (book : gmap str pyval) : result Book.Book :=
  if negb (bool_decide (size book = 10%nat)) then Raise TypeError else
  title ← keyword book k_title ≫= as_str;
  url ← keyword book k_url ≫= as_str;
  book_id ← keyword book k_book_id ≫= as_str;
  description ← keyword book k_description ≫= as_str;
  pages ← keyword book k_pages ≫= as_opt_int;
  author ← keyword book k_author ≫= as_str;
  isbn ← keyword book k_isbn ≫= as_opt_str;
  read_date ← keyword book k_read_date ≫= as_opt_datetime;
  rating ← keyword book k_rating ≫= as_opt_float;
  year ← keyword book k_year ≫= as_opt_int;
  Ok {| Book.title := title; Book.url := url; Book.book_id := book_id;
        Book.description := description; Book.pages := pages;
        Book.author := author; Book.isbn := isbn;
        Book.read_date := read_date; Book.rating := rating;
        Book.year := year |}.

(** The list [get_cached] builds: one [Book] for each item of
    [json.load(stream, object_hook=json_deserializer)]. *)
Definition load_books (snapshot : json) : result (list Book.Book) :=
  match snapshot with
  | JArr items =>
      mapM (fun item =>
              match item with
              | JObj members => json_deserializer (dict_of members) ≫= make_book
              | _ => Raise TypeError
              end) items
  | JObj members =>
      data ← json_deserializer (dict_of members);
      if bool_decide (data = ∅) then Ok [] else Raise TypeError
  | JStr [] => Ok []
  | _ => Raise TypeError
  end.

(** [json.dump([asdict(book) for book in books], stream, default=str)] *)
Definition dump_books (books : list Book.Book) : json :=
  JArr (map (fun book => JObj (map (fun kv => (kv.1, encode kv.2)) (asdict book)))
          books).


(** [get_cache_file(id, data_dir)], as the text of the path; [now] is the
    reading of the clock and [data_dir] is not used, as in the source. *)
Definition get_cache_file (now : Datetime.datetime) (id : str) (data_dir : str)
  : str :=
  PyPath.to_str
    (PyPath.parse
       (of_string "data/books-" ++ id ++ of_string "-"
        ++ Datetime.date_isoformat now ++ of_string ".json")).

(** The snapshot files, each modelled by the JSON document it holds. *)
Abbreviation snapshots := (gmap str json).

Definition get_cached (now : Datetime.datetime) (id data_dir : str)
    (files : snapshots) : result (option (list Book.Book)) :=
  let cache := get_cache_file now id data_dir in
  match files !! cache with
  | None => Ok None
  | Some snapshot => books ← load_books snapshot; Ok (Some books)
  end.

Definition set_cached (now : Datetime.datetime) (id data_dir : str)
    (books : list Book.Book) (files : snapshots) : snapshots :=
  let cache := get_cache_file now id data_dir in
  match files !! cache with
  | Some _ => files
  | None => <[cache := dump_books books]> files
  end.

(** The state the program acts on: snapshot files, text documents, and the
    log of the HTTP requests made. *)
Record world : Type := {
  cache : snapshots;
  docs : gmap str str;
  requests : list (str * nat)
}.

Section Driver.

Variable html_text : str -> str.
Variable int : str -> option Z.
Variable float : str -> option Book.float.
Variable strptime : str -> option Datetime.datetime.
(** [requests.get(url, params=dict(page=page), headers=...).text] *)
Variable requests_get : str -> nat -> result str.
(** The events [xml.dom.pulldom.parse] delivers for a response. *)
Variable pulldom_parse : str -> result (list Extract.Event).

Definition get_page (url : str) (page : nat) (w : world)
  : result (list Book.Book) * world :=
  let w := {| cache := cache w; docs := docs w;
              requests := requests w ++ [(url, page)] |} in
  (text ← requests_get url page;
   events ← pulldom_parse text;
   Ok (Extract.parse_list html_text int float strptime events), w).

(** The loop of [get_pages] from page [page] on; [None] when [fuel] pages
    did not reach an empty one. *)
Fixpoint get_pages_from (fuel : nat) (url : str) (page : nat)
    (all_books : list Book.Book) (w : world)
  : option (result (list Book.Book) * world) :=
  match fuel with
  | O => None
  | S fuel =>
      match get_page url page w with
      | (Raise e, w) => Some (Raise e, w)
      | (Ok [], w) => Some (Ok all_books, w)
      | (Ok books, w) =>
          get_pages_from fuel url (S page) (all_books ++ books) w
      end
  end.

Definition get_pages (fuel : nat) (url : str) (w : world)
  : option (result (list Book.Book) * world) :=
  get_pages_from fuel url 1 [] w.

Definition get_list (fuel : nat) (now : Datetime.datetime)
    (url id data_dir : str) (w : world)
  : option (result (list Book.Book) * world) :=
  match get_cached now id data_dir (cache w) with
  | Raise e => Some (Raise e, w)
  | Ok (Some (book :: books)) => Some (Ok (book :: books), w)
  | Ok _ =>
      match get_pages fuel url w with
      | None => None
      | Some (Raise e, w) => Some (Raise e, w)
      | Some (Ok books, w) =>
          Some (Ok books,
                {| cache := set_cached now id data_dir books (cache w);
                   docs := docs w; requests := requests w |})
      end
  end.

End Driver.

End Cache.

(** ** List renderer and rendering of a list *)

Module Render.
Import Json.

Definition slash : N := 47.

(** [str(Path(dir) / file)]: the text of the path of [file] in [dir]. *)
Definition path_join (dir file : str) : str :=
  PyPath.to_str (PyPath.joinpath (PyPath.parse dir) file).

(** [Path(path).name]: the last component. *)
Definition path_name (path : str) : str := PyPath.name (PyPath.parse path).

(** The text one turn of the loop of [write_ratings_list] hands to [print]. *)
Definition ratings_line (dir : str) (book : Book.Book) : str :=
  match Book.read_date book with
  | Some d =>
      of_string "- [[" ++ Datetime.date_isoformat d ++ of_string "]]"
      ++ [32; 5159; 32] ++ of_string "[["
      ++ path_name dir ++ [slash] ++ Book.name book ++ of_string "|"
      ++ Book.name book ++ of_string "]]"
  | None => []
  end.

(** The text of the first [print], without its [end]. *)
Definition ratings_heading (now : Datetime.datetime) (count : nat) : str :=
  of_string "Leidos " ++ Datetime.decimal (N.of_nat count)
  ++ of_string " libros " ++ of_string "("
  ++ Datetime.isoformat_minutes now ++ of_string ")".

(** The text [write_ratings_list] writes to [path]: the heading ended by two
    newlines, then one [print] for each book. *)
Definition ratings_list (now : Datetime.datetime) (books : list Book.Book)
    (dir : str) : str :=
  let stream := ratings_heading now (length books) ++ [LF; LF] in
  fold_left (fun stream book => stream ++ ratings_line dir book ++ [LF])
    books stream.

Definition write_ratings_list (now : Datetime.datetime)
    (books : list Book.Book) (path dir : str) (docs : gmap str str)
  : gmap str str :=
  <[path := ratings_list now books dir]> docs.

(** The directories of the command line, each as the text given there;
    [argparse] makes a [Path] of it. *)
Record Args : Set := { data_dir : str; listas_dir : str; books_dir : str }.

Definition libro : str := Eval cbv in of_string "#libro".

Section RenderList.

Variable html_text : str -> str.
Variable int : str -> option Z.
Variable float : str -> option Book.float.
Variable strptime : str -> option Datetime.datetime.
Variable requests_get : str -> nat -> result str.
Variable pulldom_parse : str -> result (list Extract.Event).
Variable yaml_load_first : str -> @Merge.load_outcome str pyval _ _.
Variable yaml_dump : gmap str pyval -> str.

Definition book_path (args : Args) (book : Book.Book) : str :=
  path_join (books_dir args) (Book.name book ++ of_string ".md").

(** The header fields [render_list] hands to [save_file]; reading
    [book.read_date.date()] raises [AttributeError] when there is no date. *)
Definition book_data (book : Book.Book) : result (gmap str pyval) :=
  let book_data : gmap str pyval := list_to_map (asdict book) in
  let book_data :=
    <[k_author := PStr (of_string "[[Autores/" ++ Book.author book
                        ++ of_string "|" ++ Book.author book
                        ++ of_string "]]")]> book_data in
  match Book.read_date book with
  | None => Raise AttributeError
  | Some d => Ok (<[k_read_date := PStr (Datetime.date_isoformat d)]> book_data)
  end.

(** The body of the loop over [books] in [render_list]. *)
Definition render_book (args : Args) (book : Book.Book) (docs : gmap str str)
  : result (gmap str str) :=
  let path := book_path args book in
  match docs !! path with
  | Some _ =>
      book_data ← book_data book;
      Merge.save_file yaml_load_first yaml_dump book_data libro path docs
  | None => Ok docs
  end.

(** The loop: an exception leaves the documents already rewritten in place. *)
Fixpoint render_books (args : Args) (books : list Book.Book)
    (docs : gmap str str) : result unit * gmap str str :=
  match books with
  | [] => (Ok tt, docs)
  | book :: books =>
      match render_book args book docs with
      | Ok docs => render_books args books docs
      | Raise e => (Raise e, docs)
      end
  end.

Definition render_list (fuel : nat) (now : Datetime.datetime)
    (url name id : str) (args : Args) (w : Cache.world)
  : option (result unit * Cache.world) :=
  match Cache.get_list html_text int float strptime requests_get
          pulldom_parse fuel now url id (data_dir args) w with
  | None => None
  | Some (Raise e, w) => Some (Raise e, w)
  | Some (Ok books, w) =>
      let docs :=
        write_ratings_list now books (path_join (listas_dir args) name)
          (books_dir args) (Cache.docs w) in
      let '(r, docs) := render_books args books docs in
      Some (r, {| Cache.cache := Cache.cache w; Cache.docs := docs;
                  Cache.requests := Cache.requests w |})
  end.

End RenderList.

End Render.

(** ** Shapes of feeds *)

Module Feed.

Definition is_start_item (e : Extract.Event) : bool :=
  str_eqb (Extract.name e) Extract.item_tag && Extract.is_start e.

Definition is_end_channel (e : Extract.Event) : bool :=
  Extract.is_end e && str_eqb (Extract.name e) Extract.channel_tag.

(** The number of item starts in a stream. *)
Fixpoint item_starts (events : list Extract.Event) : nat :=
  match events with
  | [] => O
  | e :: events =>
      ((if is_start_item e then 1 else 0) + item_starts events)%nat
  end.

(** The events one turn of the loop of [parse_list] goes through when it
    finds an item: the event the loop draws, the events [parse_item] skips,
    the start of the item, its fields and the event named [item] that ends
    them. *)
Record chunk : Set := {
  gap : Extract.Event;
  skipped : list Extract.Event;
  opening : Extract.Event;
  fields : list Extract.Event;
  closing : Extract.Event
}.

Definition chunk_events (c : chunk) : list Extract.Event :=
  gap c :: skipped c ++ opening c :: fields c ++ [closing c].

Definition well_spaced (c : chunk) : Prop :=
  is_end_channel (gap c) = false
  /\ Forall (fun e => is_start_item e = false) (skipped c)
  /\ is_start_item (opening c) = true
  /\ Forall (fun e => Extract.name e <> Extract.item_tag) (fields c)
  /\ Extract.name (closing c) = Extract.item_tag.

(** The item the fields of a chunk build. *)
Definition chunk_item (html_text : str -> str) (c : chunk)
  : Extract.item_dict :=
  snd (fold_left (Extract.parse_item_step html_text) (fields c) (None, ∅)).

(** The book, if any, that the item of a chunk gives. *)
Definition chunk_books (html_text : str -> str) (int : str -> option Z)
    (float : str -> option Book.float)
    (strptime : str -> option Datetime.datetime) (c : chunk)
  : list Book.Book :=
  if nonempty (Extract.get (chunk_item html_text c) Extract.book_id_key)
  then [Extract.from_goodreads int float strptime (chunk_item html_text c)]
  else [].

(** [entry[key]] for a field of the feed. *)
Definition entry_field (entry : Extract.item_dict) (key : string) : str :=
  Extract.getitem entry (Some (of_string key)).

End Feed.

(** ** Pages and commands *)

Module Commands.

(** The dataclass [Config]. *)
Record Config : Set := { read_url : str; want_url : str }.

(** The parsed command line: the directories and [args.config]. *)
Record Namespace : Set := { dirs : Render.Args; config : Config }.

Definition read_id : str := Eval cbv in of_string "read".
Definition want_id : str := Eval cbv in of_string "want".
Definition read_list_name : str := Eval cbv in of_string "Libros Leidos.md".
Definition want_list_name : str := Eval cbv in of_string "Want to Read.md".

(** The world after further requests. *)
Definition after_requests (w : Cache.world) (more : list (str * nat))
  : Cache.world :=
  {| Cache.cache := Cache.cache w; Cache.docs := Cache.docs w;
     Cache.requests := Cache.requests w ++ more |}.

(** The requests for [count] pages of [url] from page [first] on. *)
Definition page_requests (url : str) (first count : nat) : list (str * nat) :=
  map (fun page => (url, page)) (seq first count).

(** The requests a run has added, all to one URL. *)
Definition only_requests (url : str) (w w' : Cache.world) : Prop :=
  exists more,
    Cache.requests w' = Cache.requests w ++ more
    /\ Forall (fun q => q.1 = url) more.

Section Commands.

Variable html_text : str -> str.
Variable int : str -> option Z.
Variable float : str -> option Book.float.
Variable strptime : str -> option Datetime.datetime.
Variable requests_get : str -> nat -> result str.
Variable pulldom_parse : str -> result (list Extract.Event).
Variable yaml_load_first : str -> Merge.load_outcome (K:=str) (V:=Json.pyval).
Variable yaml_dump : gmap str Json.pyval -> str.

(** What [get_page] returns, apart from the request it logs. *)
Definition page_books (url : str) (page : nat) : result (list Book.Book) :=
  text ← requests_get url page;
  events ← pulldom_parse text;
  Ok (Extract.parse_list html_text int float strptime events).

(** [print_list]: the JSON document printed on standard output. *)
Definition print_list (fuel : nat) (now : Datetime.datetime) (url id : str)
    (args : Namespace) (w : Cache.world)
  : option (result Json.json * Cache.world) :=
  match Cache.get_list html_text int float strptime requests_get
          pulldom_parse fuel now url id (Render.data_dir (dirs args)) w with
  | None => None
  | Some (Raise e, w) => Some (Raise e, w)
  | Some (Ok books, w) => Some (Ok (Cache.dump_books books), w)
  end.

Definition render_list (fuel : nat) (now : Datetime.datetime)
    (url name id : str) (args : Namespace) (w : Cache.world)
  : option (result unit * Cache.world) :=
  Render.render_list html_text int float strptime requests_get pulldom_parse
    yaml_load_first yaml_dump fuel now url name id (dirs args) w.

Definition list_read_command (fuel : nat) (now : Datetime.datetime)
    (args : Namespace) (w : Cache.world) :=
  print_list fuel now (read_url (config args)) read_id args w.

Definition list_want_command (fuel : nat) (now : Datetime.datetime)
    (args : Namespace) (w : Cache.world) :=
  print_list fuel now (read_url (config args)) want_id args w.

Definition render_read_command (fuel : nat) (now : Datetime.datetime)
    (args : Namespace) (w : Cache.world) :=
  render_list fuel now (read_url (config args)) read_list_name read_id args w.

Definition render_want_command (fuel : nat) (now : Datetime.datetime)
    (args : Namespace) (w : Cache.world) :=
  render_list fuel now (want_url (config args)) want_list_name want_id args w.

End Commands.

End Commands.

(** ** Statements of the specification, for comparison *)

Module Spec.

(** The body as the specification words it: everything after the first line
    that is the separator, and the whole content when no line is. *)
Definition spec_body (content : str) : str :=
  if bool_decide (Merge.separator ∈ lines content) then
    concat (snd (takewhile (fun line => negb (str_eqb line Merge.separator))
                   (lines content)))
  else content.

(** [span p l]: the longest prefix satisfying [p], and the rest with the
    item that stops it. *)
Fixpoint span {A} (p : A -> bool) (l : list A) : list A * list A :=
  match l with
  | [] => ([], [])
  | x :: l' =>
      if p x then let (a, b) := span p l' in (x :: a, b) else ([], l)
  end.

(** The record extractor as the specification words it: after the opening
    start of an item, the events up to, and not including, the next start of
    an item. *)
Definition spec_parse_item (html_text : str -> str)
    (events : list Extract.Event) : Extract.item_dict * list Extract.Event :=
  let '(_, events) :=
    Extract.first_such
      (fun e => str_eqb (Extract.name e) Extract.item_tag && Extract.is_start e)
      events in
  let '(body, events) :=
    span (fun e => negb (str_eqb (Extract.name e) Extract.item_tag
                         && Extract.is_start e)) events in
  (snd (fold_left (Extract.parse_item_step html_text) body (None, ∅)), events).


End Spec.

(** ** A small YAML library for examples *)

Module FlatYaml.

(** A dumper and a loader for mappings from plain keys to plain one-line
    values, laid out as ruamel.yaml does with [explicit_start] and
    [explicit_end]. They stand for the library in the examples. *)

Definition entry (kv : str * str) : str :=
  kv.1 ++ [58; 32] ++ kv.2 ++ [LF].

Definition dump (m : gmap str str) : str :=
  of_string "---" ++ [LF] ++ concat (map entry (map_to_list m))
  ++ Merge.document_end.

(** [key: value], split at the first colon followed by a space. *)
Fixpoint split_entry (line : str) : option (str * str) :=
  match line with
  | [] => None
  | c :: rest =>
      if (c =? 58) && startswith [32] rest then Some ([], drop 1 rest)
      else kv ← split_entry rest; Some (c :: kv.1, kv.2)
  end.

(** A flow sequence that is opened and not closed. *)
Definition unclosed (v : str) : bool :=
  startswith [91] v && negb (bool_decide (93 ∈ v)).

Definition load_line (acc : Merge.load_outcome (K:=str) (V:=str)) (line : str)
  : Merge.load_outcome :=
  let line := strip line in
  match acc with
  | Merge.Raised e => acc
  | Merge.Loaded doc =>
      if str_eqb line [] || str_eqb line (of_string "---") then acc
      else
        match split_entry line, doc with
        | Some (k, v), None =>
            if unclosed v then Merge.Raised ParserError
            else Merge.Loaded (Some (Merge.YDict {[ k := v ]}))
        | Some (k, v), Some (Merge.YDict m) =>
            if unclosed v then Merge.Raised ParserError
            else Merge.Loaded (Some (Merge.YDict (<[k := v]> m)))
        | Some _, Some Merge.YOther => Merge.Raised ScannerError
        | None, None => Merge.Loaded (Some Merge.YOther)
        | None, Some _ => Merge.Raised ScannerError
        end
  end.

Definition load_first (text : str) : Merge.load_outcome :=
  fold_left load_line (lines text) (Merge.Loaded None).

End FlatYaml.

(** ** Example documents *)

Module Examples.

Definition note_path : str := Eval cbv in of_string "Libros/Dune.md".

Definition dune_fields : gmap str str :=
  {[ of_string "title" := of_string "Dune" ]}.

(** A note written by hand, with no separator line. *)
Definition plain_note : str := Eval cbv in of_string "hello" ++ [LF].

(** A note with a separator line and blanks around its body. *)
Definition padded_note : str :=
  Eval cbv in of_string "----" ++ [LF] ++ of_string " x " ++ [LF].

(** A note with a header of two fields, the marker and a body. *)
Definition headed_note : str :=
  Eval cbv in
    of_string "---" ++ [LF] ++ of_string "rating: 5" ++ [LF]
    ++ of_string "title: Old" ++ [LF] ++ of_string "..." ++ [LF]
    ++ of_string "---" ++ [LF; LF] ++ of_string "#libro" ++ [LF; LF]
    ++ of_string "----" ++ [LF; LF] ++ of_string "body" ++ [LF].

(** The header of [headed_note]. *)
Definition old_header : gmap str str :=
  {[ of_string "rating" := of_string "5";
     of_string "title" := of_string "Old" ]}.

(** [headed_note] after [save_file] with [dune_fields]. *)
Definition merged_note : str :=
  Eval cbv in
    of_string "---" ++ [LF] ++ of_string "rating: 5" ++ [LF]
    ++ of_string "title: Dune" ++ [LF] ++ of_string "..." ++ [LF]
    ++ of_string "---" ++ [LF; LF] ++ of_string "#libro" ++ [LF; LF]
    ++ of_string "----" ++ [LF; LF] ++ of_string "body" ++ [LF].

(** A note whose first line opens a flow sequence and never closes it. *)
Definition broken_note : str := Eval cbv in of_string "a: [1, 2" ++ [LF].

(** Fri, 30 Nov 2018 07:08:00 -0800 *)
Definition read_on : Datetime.datetime :=
  {| Datetime.year := 2018; Datetime.month := 11; Datetime.day := 30;
     Datetime.hour := 7; Datetime.minute := 8; Datetime.second := 0;
     Datetime.microsecond := 0; Datetime.tzinfo := Some (-28800000000)%Z |}.

(** The clock of a run, without time zone. *)
Definition clock : Datetime.datetime :=
  {| Datetime.year := 2024; Datetime.month := 2; Datetime.day := 29;
     Datetime.hour := 23; Datetime.minute := 59; Datetime.second := 58;
     Datetime.microsecond := 123456; Datetime.tzinfo := None |}.

Definition dune : Book.Book :=
  {| Book.title := of_string "Dune: Deluxe Edition (Dune, #1)";
     Book.url := of_string "https://www.goodreads.com/review/show/1";
     Book.book_id := of_string "44767458";
     Book.description := of_string "Melange";
     Book.pages := Some 658%Z;
     Book.author := of_string "Frank Herbert";
     Book.isbn := None;
     Book.read_date := Some read_on;
     Book.rating := None;
     Book.year := Some 1965%Z |}.

(** A book whose three date fields did not parse. *)
Definition undated : Book.Book :=
  {| Book.title := of_string "Solaris";
     Book.url := of_string "https://www.goodreads.com/review/show/2";
     Book.book_id := of_string "95558";
     Book.description := [];
     Book.pages := None;
     Book.author := of_string "Stanislaw Lem";
     Book.isbn := Some (of_string "0156027607");
     Book.read_date := None;
     Book.rating := None;
     Book.year := None |}.

(** A book whose title runs over two lines. *)
Definition two_line_title : Book.Book :=
  {| Book.title := of_string "Dune" ++ [LF] ++ of_string "Messiah";
     Book.url := of_string "https://www.goodreads.com/review/show/3";
     Book.book_id := of_string "106";
     Book.description := [];
     Book.pages := None;
     Book.author := of_string "Frank Herbert";
     Book.isbn := None;
     Book.read_date := Some read_on;
     Book.rating := None;
     Book.year := None |}.



Definition books_dir : str := Eval cbv in of_string "Libros".

Definition read_id : str := Eval cbv in of_string "read".
Definition data_dir : str := Eval cbv in of_string "data".

(** The text of a fragment without markup is the fragment. *)
Definition plain_text (s : str) : str := s.

Definition Start (tag : string) : Extract.Event :=
  {| Extract.ev_status := Extract.START_ELEMENT;
     Extract.name := of_string tag; Extract.value := [] |}.
Definition End_ (tag : string) : Extract.Event :=
  {| Extract.ev_status := Extract.END_ELEMENT;
     Extract.name := of_string tag; Extract.value := [] |}.
Definition Text (data : string) : Extract.Event :=
  {| Extract.ev_status := Extract.CHARACTERS;
     Extract.name := of_string "#text"; Extract.value := of_string data |}.
Definition StartDocument : Extract.Event :=
  {| Extract.ev_status := Extract.START_DOCUMENT;
     Extract.name := of_string "#document"; Extract.value := [] |}.

(** The events of [<item><book_id>id</book_id></item>]. *)
Definition item_events (id : string) : list Extract.Event :=
  [Start "item"; Start "book_id"; Text id; End_ "book_id"; End_ "item"].

(** An item without text in its [book_id]. *)
Definition empty_item_events : list Extract.Event :=
  [Start "item"; Start "book_id"; End_ "book_id"; End_ "item"].

(** One item followed by the white space before the next. *)
Definition one_item_then_next : list Extract.Event :=
  item_events "1" ++ [Text " "; Start "item"; Start "book_id"].

(** A feed of three items written without white space between elements. *)
Definition dense_feed : list Extract.Event :=
  [StartDocument; Start "rss"; Start "channel"]
  ++ item_events "1" ++ item_events "2" ++ item_events "3"
  ++ [End_ "channel"; End_ "rss"].

(** A feed of three items, one per line, the second without [book_id] text. *)
Definition spaced_feed : list Extract.Event :=
  [StartDocument; Start "rss"; Start "channel"; Text " "]
  ++ item_events "1" ++ [Text " "] ++ empty_item_events ++ [Text " "]
  ++ item_events "3" ++ [Text " "; End_ "channel"; End_ "rss"].

(** A site that serves [spaced_feed] as its first page and a feed without
    items as every other page; the text of a response is its page number. *)
Definition site_get (url : str) (page : nat) : result str :=
  Ok (Datetime.decimal (N.of_nat page)).

Definition site_parse (text : str) : result (list Extract.Event) :=
  if str_eqb text [49] then Ok spaced_feed
  else Ok [StartDocument; Start "rss"; Start "channel"; End_ "channel";
           End_ "rss"].

Definition no_value {A} (text : str) : option A := None.

Definition feed_url : str := Eval cbv in of_string "https://example.org/rss".

(** A run on a day whose snapshot is the empty list. *)
Definition empty_snapshot_world : Cache.world :=
  {| Cache.cache :=
       {[ Cache.get_cache_file clock read_id data_dir := Json.JArr [] ]};
     Cache.docs := ∅;
     Cache.requests := [] |}.

(** A run on a day whose snapshot holds [dune], with no document yet. *)
Definition first_render_world : Cache.world :=
  {| Cache.cache :=
       {[ Cache.get_cache_file clock read_id data_dir
          := Cache.dump_books [dune] ]};
     Cache.docs := ∅;
     Cache.requests := [] |}.

Definition list_name : str := Eval cbv in of_string "Libros Leidos.md".

(** The same world after the list has been rendered. *)
Definition first_render_result : Cache.world :=
  {| Cache.cache := Cache.cache first_render_world;
     Cache.docs :=
       {[ of_string "Listas/Libros Leidos.md"
          := Render.ratings_list clock [dune] books_dir ]};
     Cache.requests := [] |}.

Definition args : Render.Args :=
  {| Render.data_dir := data_dir;
     Render.listas_dir := of_string "Listas";
     Render.books_dir := books_dir |}.

(** A YAML library that finds no document and writes an empty mapping. *)
Definition no_document (text : str)
  : Merge.load_outcome (K:=str) (V:=Json.pyval) :=
  Merge.Loaded None.

Definition empty_mapping (data : gmap str Json.pyval) : str :=
  of_string "--- {}" ++ [LF] ++ Merge.document_end.

End Examples.

(** ** Further examples *)

Module More.
Import Examples.

(** A [strptime] that reads the one date of the examples. *)
Definition pub_date : str :=
  Eval cbv in of_string "Fri, 30 Nov 2018 07:08:00 -0800".

Definition one_date (text : str) : option Datetime.datetime :=
  if str_eqb text pub_date then Some read_on else None.

(** [spaced_feed], one turn of [parse_list] at a time. *)
Definition first_chunk : Feed.chunk :=
  {| Feed.gap := StartDocument;
     Feed.skipped := [Start "rss"; Start "channel"; Text " "];
     Feed.opening := Start "item";
     Feed.fields := [Start "book_id"; Text "1"; End_ "book_id"];
     Feed.closing := End_ "item" |}.

Definition second_chunk : Feed.chunk :=
  {| Feed.gap := Text " ";
     Feed.skipped := [];
     Feed.opening := Start "item";
     Feed.fields := [Start "book_id"; End_ "book_id"];
     Feed.closing := End_ "item" |}.

Definition third_chunk : Feed.chunk :=
  {| Feed.gap := Text " ";
     Feed.skipped := [];
     Feed.opening := Start "item";
     Feed.fields := [Start "book_id"; Text "3"; End_ "book_id"];
     Feed.closing := End_ "item" |}.

Definition feed_tail : list Extract.Event :=
  [Text " "; End_ "channel"; End_ "rss"].

(** A page without items. *)
Definition empty_page : list Extract.Event :=
  [StartDocument; Start "rss"; Start "channel"; End_ "channel"; End_ "rss"].

(** [float('-nan')]: a NaN with the sign set. *)
Definition minus_nan : Book.float := {| Book.bits := 18444492273895866368 |}.

(** A [float] that reads the two spellings of NaN and nothing else. *)
Definition nan_float (text : str) : option Book.float :=
  if str_eqb text (of_string "nan") then Some Book.nan
  else if str_eqb text (of_string "-nan") then Some minus_nan
  else None.

(** An item with a publication date and a rating that is not a number, after
    the start of the document. *)
Definition dated_page : list Extract.Event :=
  [StartDocument; Start "item"; Start "book_id"; Text "7"; End_ "book_id";
   Start "pubDate"; Text "Fri, 30 Nov 2018 07:08:00 -0800"; End_ "pubDate";
   Start "average_rating"; Text "-nan"; End_ "average_rating";
   End_ "item"].

(** The books of the first page of the example site. *)
Definition first_page_books : list Book.Book :=
  Extract.parse_list plain_text no_value no_value no_value spaced_feed.

(** A site whose second page cannot be fetched. *)
Definition failing_get (url : str) (page : nat) : result str :=
  if Nat.eqb page 2 then Raise TransportError else site_get url page.

Definition new_world : Cache.world :=
  {| Cache.cache := ∅; Cache.docs := ∅; Cache.requests := [] |}.

(** A document with a line of five dashes and no separator line. *)
Definition five_dashes_note : str :=
  Eval cbv in of_string "-----" ++ [LF] ++ of_string "notes" ++ [LF].

Definition header_lines : list str :=
  Eval cbv in [of_string "---" ++ [LF]; of_string "title: Dune" ++ [LF]].

Definition solaris_path : str := Eval cbv in of_string "Libros/Solaris.md".

Definition namespace : Commands.Namespace :=
  {| Commands.dirs := args;
     Commands.config :=
       {| Commands.read_url := feed_url;
          Commands.want_url := of_string "https://example.org/want" |} |}.

End More.

(** * Properties *)

(** ** Strings and iterators *)

Section StrFacts.

Lemma str_eqb_eq (a b : str) : str_eqb a b = true <-> a = b.
Proof.
  revert b; induction a as [|x a IH]; intros [|y b]; simpl; try easy.
  rewrite andb_true_iff, N.eqb_eq, IH. split.
  - intros [-> ->]; reflexivity.
  - intros [= -> ->]; auto.
Qed.

Lemma str_eqb_refl (a : str) : str_eqb a a = true.
Proof. apply str_eqb_eq; reflexivity. Qed.

Lemma str_eqb_neq (a b : str) : str_eqb a b = false <-> a <> b.
Proof.
  rewrite <- str_eqb_eq. destruct (str_eqb a b); split; congruence.
Qed.

Lemma startswith_app (p s : str) : startswith p (p ++ s) = true.
Proof.
  induction p as [|x p IH]; simpl; [now destruct s|].
  now rewrite N.eqb_refl, IH.
Qed.

Lemma contains_startswith (sub s : str) :
  startswith sub s = true -> contains sub s = true.
Proof. intros Hs. destruct s; simpl; now rewrite Hs. Qed.

Lemma contains_app (sub pre post : str) :
  contains sub (pre ++ sub ++ post) = true.
Proof.
  induction pre as [|x pre IH].
  - rewrite app_nil_l. apply contains_startswith, startswith_app.
  - simpl. rewrite IH. apply orb_true_r.
Qed.

Lemma lines_nil_inv (s : str) : lines s = [] -> s = [].
Proof.
  destruct s as [|c s]; simpl; [reflexivity|].
  destruct (c =? LF); [discriminate|]. destruct (lines s); discriminate.
Qed.

(** Iterating a file yields its whole content. *)
Lemma concat_lines (s : str) : concat (lines s) = s.
Proof.
  induction s as [|c s IH]; simpl; [reflexivity|].
  destruct (c =? LF); simpl; [now rewrite IH|].
  destruct (lines s) as [|l ls] eqn:E; simpl in *.
  - now rewrite (lines_nil_inv s E).
  - now rewrite <- IH.
Qed.

Lemma closed_cons_inv (c : N) (s : str) :
  closed (c :: s) -> (s = [] /\ c = LF) \/ (s <> [] /\ closed s).
Proof.
  intros [?|Hl]; [discriminate|].
  destruct s as [|c' s]; [left; split; [reflexivity|now inversion Hl]|].
  right; split; [discriminate|]. right. exact Hl.
Qed.

Lemma lines_app (a b : str) :
  closed a -> lines (a ++ b) = lines a ++ lines b.
Proof.
  induction a as [|c a IH]; intros Hc; simpl; [reflexivity|].
  destruct (closed_cons_inv _ _ Hc) as [[-> ->]|[Hne Hc']].
  - reflexivity.
  - rewrite (IH Hc'). destruct (c =? LF); [reflexivity|].
    destruct (lines a) as [|l ls] eqn:E; [|reflexivity].
    now apply lines_nil_inv in E.
Qed.

Lemma closed_app (a b : str) : closed b -> b <> [] -> closed (a ++ b).
Proof.
  intros [->|Hl] Hne; [congruence|]. right.
  rewrite last_app, Hl. reflexivity.
Qed.

Lemma closed_snoc (a : str) : closed (a ++ [LF]).
Proof. apply closed_app; [right; reflexivity|discriminate]. Qed.

Lemma takewhile_stop {A} (p : A -> bool) (l1 : list A) (x : A) (l2 : list A) :
  Forall (fun y => p y = true) l1 -> p x = false ->
  takewhile p (l1 ++ x :: l2) = (l1, l2).
Proof.
  intros Hall Hx. induction Hall as [|y l1 Hy _ IH]; simpl.
  - now rewrite Hx.
  - now rewrite Hy, IH.
Qed.

Lemma takewhile_all {A} (p : A -> bool) (l : list A) :
  Forall (fun y => p y = true) l -> takewhile p l = (l, []).
Proof.
  intros Hall. induction Hall as [|y l Hy _ IH]; simpl; [reflexivity|].
  now rewrite Hy, IH.
Qed.

(** What [takewhile] yields does not depend on what follows the item that
    stops it. *)
Lemma takewhile_fst_app {A} (p : A -> bool) (l k : list A) :
  Exists (fun y => p y = false) l ->
  fst (takewhile p (l ++ k)) = fst (takewhile p l).
Proof.
  induction l as [|y l IH]; intros Hex; [inversion Hex|]. simpl.
  destruct (p y) eqn:Hy; [|reflexivity].
  inversion Hex as [? ? Hn|? ? Hex']; subst; [congruence|].
  specialize (IH Hex').
  destruct (takewhile p (l ++ k)), (takewhile p l). simpl in *. congruence.
Qed.

Lemma lstrip_space (c : N) (s : str) :
  isspace c = true -> lstrip (c :: s) = lstrip s.
Proof. intros Hc; simpl; now rewrite Hc. Qed.

Lemma lstrip_snoc_space (s : str) (w : N) :
  isspace w = true ->
  lstrip (s ++ [w]) = match lstrip s with [] => [] | t => t ++ [w] end.
Proof.
  intros Hw. induction s as [|c s IH]; simpl; [now rewrite Hw|].
  destruct (isspace c); [exact IH|reflexivity].
Qed.

Lemma rstrip_snoc_space (s : str) (w : N) :
  isspace w = true -> rstrip (s ++ [w]) = rstrip s.
Proof.
  intros Hw. unfold rstrip. rewrite rev_app_distr. simpl. now rewrite Hw.
Qed.

Lemma strip_newlines (t : str) : strip (LF :: t ++ [LF]) = strip t.
Proof.
  unfold strip. rewrite lstrip_space by reflexivity.
  rewrite lstrip_snoc_space by reflexivity.
  destruct (lstrip t) as [|c u]; [reflexivity|].
  apply rstrip_snoc_space. reflexivity.
Qed.

Lemma lstrip_idem (s : str) : lstrip (lstrip s) = lstrip s.
Proof.
  induction s as [|c s IH]; simpl; [reflexivity|].
  destruct (isspace c) eqn:Hc; [exact IH|]. simpl. now rewrite Hc.
Qed.

Lemma lstrip_snoc_nonspace (s : str) (c : N) :
  isspace c = false -> lstrip (s ++ [c]) = lstrip s ++ [c].
Proof.
  intros Hc. induction s as [|x s IH]; simpl; [now rewrite Hc|].
  destruct (isspace x); [exact IH|reflexivity].
Qed.

(** Stripping the right end keeps a left end that is already stripped. *)
Lemma lstrip_rstrip_lstrip (s : str) :
  lstrip (rstrip (lstrip s)) = rstrip (lstrip s).
Proof.
  induction s as [|c s IH]; [reflexivity|].
  simpl lstrip at 2 3. destruct (isspace c) eqn:Hc; [exact IH|].
  unfold rstrip. simpl rev at 2 4.
  rewrite lstrip_snoc_nonspace by exact Hc.
  rewrite rev_app_distr. simpl. now rewrite Hc.
Qed.

Lemma strip_idem (s : str) : strip (strip s) = strip s.
Proof.
  unfold strip. rewrite lstrip_rstrip_lstrip.
  unfold rstrip. rewrite rev_involutive, lstrip_idem. reflexivity.
Qed.

End StrFacts.

(** ** Document merge engine *)

Section MergeFacts.

Context {K V : Type} `{Countable K}.
Variable yaml_load_first : str -> Merge.load_outcome (K:=K) (V:=V).
Variable yaml_dump : gmap K V -> str.

Let extract_yaml_doc := Merge.extract_yaml_doc yaml_load_first.
Let previous := Merge.previous yaml_load_first.
Let document := Merge.document yaml_dump.
Let save_file := Merge.save_file yaml_load_first yaml_dump.

Lemma lines_separator (post : str) :
  lines (Merge.separator ++ post) = Merge.separator :: lines post.
Proof.
  rewrite lines_app by (right; reflexivity). reflexivity.
Qed.

Lemma not_separator_all (ls : list str) :
  Merge.separator ∉ ls ->
  Forall (fun l => negb (str_eqb l Merge.separator) = true) ls.
Proof.
  intros Hn. apply Forall_forall. intros l Hl.
  apply negb_true_iff, str_eqb_neq. intros ->. exact (Hn Hl).
Qed.

(** The text after the first separator line, stripped. *)
Lemma extract_file_text_separator (pre post : str) :
  closed pre -> Merge.separator ∉ lines pre ->
  Merge.extract_file_text (pre ++ Merge.separator ++ post) = strip post.
Proof.
  intros Hc Hn. unfold Merge.extract_file_text.
  rewrite contains_app. simpl negb. cbv iota.
  rewrite (lines_app _ _ Hc), lines_separator.
  rewrite takewhile_stop.
  - now rewrite concat_lines.
  - now apply not_separator_all.
  - now rewrite str_eqb_refl.
Qed.

Lemma extract_file_text_whole (content : str) :
  contains Merge.separator content = false ->
  Merge.extract_file_text content = content.
Proof. intros Hc. unfold Merge.extract_file_text. now rewrite Hc. Qed.

(** Only the lines before the first document end reach the YAML loader. *)
Lemma header_text_app (text rest : str) :
  closed text -> Merge.document_end ∈ lines text ->
  Merge.header_text (text ++ rest) = Merge.header_text text.
Proof.
  intros Hc Hin. unfold Merge.header_text.
  rewrite (lines_app _ _ Hc), takewhile_fst_app; [reflexivity|].
  apply Exists_exists. exists Merge.document_end. split.
  - exact Hin.
  - now rewrite str_eqb_refl.
Qed.

Lemma extract_yaml_doc_app (text rest : str) :
  closed text -> Merge.document_end ∈ lines text ->
  extract_yaml_doc (text ++ rest) = extract_yaml_doc text.
Proof.
  intros Hc Hin. unfold extract_yaml_doc, Merge.extract_yaml_doc.
  now rewrite header_text_app.
Qed.

Lemma dict_or_lookup (previous_header data : gmap K V) (k : K) :
  Merge.dict_or previous_header data !! k
  = match data !! k with
    | Some v => Some v
    | None => previous_header !! k
    end.
Proof.
  unfold Merge.dict_or. rewrite lookup_union.
  destruct (data !! k), (previous_header !! k); reflexivity.
Qed.

Lemma dict_or_again (previous_header data : gmap K V) :
  Merge.dict_or (Merge.dict_or previous_header data) data
  = Merge.dict_or previous_header data.
Proof.
  apply map_eq. intros k. rewrite !dict_or_lookup.
  destruct (data !! k); reflexivity.
Qed.

Lemma save_file_previous (data : gmap K V) (markers path : str)
    (fs : gmap str str) (prev : gmap K V) (text : str) :
  previous path fs = Ok (prev, text) ->
  save_file data markers path fs
  = Ok (<[path := document (Merge.dict_or prev data) markers text]> fs).
Proof.
  intros Hp. unfold save_file, Merge.save_file.
  fold previous. rewrite Hp. reflexivity.
Qed.

Lemma lines_written_head (dump markers : str) :
  closed dump ->
  lines (dump ++ Merge.dashes ++ [LF; LF] ++ markers ++ [LF; LF])
  = lines dump ++ [Merge.dashes ++ [LF]; [LF]]
    ++ lines (markers ++ [LF]) ++ [[LF]].
Proof.
  intros Hc. rewrite (lines_app _ _ Hc). f_equal.
  change (Merge.dashes ++ [LF; LF] ++ markers ++ [LF; LF])
    with ((Merge.dashes ++ [LF; LF]) ++ markers ++ [LF; LF]).
  rewrite lines_app by (right; reflexivity).
  change (lines (Merge.dashes ++ [LF; LF]))
    with ([Merge.dashes ++ [LF]; [LF]]).
  f_equal.
  change [LF; LF] with ([LF] ++ [LF]). rewrite app_assoc.
  rewrite (lines_app _ _ (closed_snoc markers)). reflexivity.
Qed.

Lemma closed_written_head (dump markers : str) :
  closed (dump ++ Merge.dashes ++ [LF; LF] ++ markers ++ [LF; LF]).
Proof.
  rewrite !app_assoc. apply closed_app; [right; reflexivity|discriminate].
Qed.

(** Reading back a document that [save_file] wrote. *)
Lemma previous_of_document (final : gmap K V) (markers text path : str)
    (fs : gmap str str) :
  closed (yaml_dump final) ->
  Merge.document_end ∈ lines (yaml_dump final) ->
  Merge.separator ∉ lines (yaml_dump final) ->
  extract_yaml_doc (yaml_dump final) = Ok final ->
  Merge.separator ∉ lines (markers ++ [LF]) ->
  previous path (<[path := document final markers text]> fs)
  = Ok (final, strip text).
Proof.
  intros Hc Hend Hsep Hrt Hm. unfold previous, Merge.previous.
  rewrite lookup_insert_eq. fold extract_yaml_doc.
  unfold document, Merge.document.
  rewrite (extract_yaml_doc_app _ _ Hc Hend), Hrt.
  unfold mbind, result_bind. do 2 f_equal.
  replace (yaml_dump final ++ Merge.dashes ++ [LF; LF] ++ markers
           ++ [LF; LF] ++ Merge.separator ++ [LF] ++ text ++ [LF])
    with ((yaml_dump final ++ Merge.dashes ++ [LF; LF] ++ markers ++ [LF; LF])
          ++ Merge.separator ++ (LF :: text ++ [LF]))
    by (rewrite <- !app_assoc; reflexivity).
  rewrite extract_file_text_separator.
  - apply strip_newlines.
  - apply closed_written_head.
  - rewrite (lines_written_head _ _ Hc).
    rewrite !not_elem_of_app. repeat split; try assumption.
    + intros Hin. apply list_elem_of_In in Hin. simpl in Hin.
      destruct Hin as [Heq|[Heq|[]]]; discriminate Heq.
    + intros Hin. apply list_elem_of_In in Hin. simpl in Hin.
      destruct Hin as [Heq|[]]; discriminate Heq.
Qed.

(** C1 (amended). The body of an existing document is the text after its
    first separator line with surrounding white space stripped, or the whole
    content when the separator text does not occur in it; the document
    [save_file] writes ends with the separator line, an empty line, that body
    unchanged (marker sequences inside it included) and a newline. *)
Theorem save_file_keeps_stripped_body (data : gmap K V)
    (markers path : str) (fs : gmap str str) (content body : str)
    (prev : gmap K V) :
  fs !! path = Some content ->
  Merge.stripped_body content body ->
  extract_yaml_doc content = Ok prev ->
  Merge.extract_file_text content = body
  /\ save_file data markers path fs
     = Ok (<[path := yaml_dump (Merge.dict_or prev data)
                     ++ Merge.dashes ++ [LF; LF] ++ markers ++ [LF; LF]
                     ++ Merge.separator ++ [LF] ++ body ++ [LF]]> fs).
Proof.
  intros Hfs Hbody Hy.
  assert (Merge.extract_file_text content = body) as Hb.
  { destruct Hbody as [pre post Hc Hn|c Hc].
    - now apply extract_file_text_separator.
    - now apply extract_file_text_whole. }
  split; [exact Hb|].
  apply save_file_previous. unfold previous, Merge.previous.
  rewrite Hfs. fold extract_yaml_doc. rewrite Hy, Hb. reflexivity.
Qed.

(** C2 (amended). When the marker text has no separator line, the dumped
    header is a run of whole lines with a document end and no separator line
    that loads back to itself, and the body taken from the document is
    already stripped (as it is for a new document and for one that holds a
    separator line), a second [save_file] with the same fields and marker
    leaves the document written by the first byte for byte as it is. *)
Theorem save_file_idempotent (data : gmap K V) (markers path : str)
    (fs : gmap str str) (prev : gmap K V) (text : str) :
  previous path fs = Ok (prev, text) ->
  closed (yaml_dump (Merge.dict_or prev data)) ->
  Merge.document_end ∈ lines (yaml_dump (Merge.dict_or prev data)) ->
  Merge.separator ∉ lines (yaml_dump (Merge.dict_or prev data)) ->
  extract_yaml_doc (yaml_dump (Merge.dict_or prev data))
  = Ok (Merge.dict_or prev data) ->
  Merge.separator ∉ lines (markers ++ [LF]) ->
  strip text = text ->
  exists fs1,
    save_file data markers path fs = Ok fs1
    /\ fs1 !! path = Some (document (Merge.dict_or prev data) markers text)
    /\ save_file data markers path fs1 = Ok fs1.
Proof.
  intros Hp Hc Hend Hsep Hrt Hm Hs.
  eexists. split; [apply (save_file_previous _ _ _ _ _ _ Hp)|].
  split; [apply lookup_insert_eq|].
  rewrite (save_file_previous data markers path _ (Merge.dict_or prev data) text).
  - rewrite dict_or_again, insert_insert_eq. reflexivity.
  - rewrite previous_of_document by assumption. now rewrite Hs.
Qed.

(** C3. The header [save_file] writes is the previous header overridden by
    the new fields. For a document whose header loads as the mapping [prev],
    the document written starts with the dump of a mapping [final] in which
    a key of the new fields has its new value and any other key has what
    [prev] gives it; the marker, the separator and the body follow, and no
    other document changes. *)
Theorem save_file_merges_header (data : gmap K V) (markers path : str)
    (fs : gmap str str) (content : str) (prev : gmap K V) :
  fs !! path = Some content ->
  yaml_load_first (Merge.header_text content)
  = Merge.Loaded (Some (Merge.YDict prev)) ->
  exists final fs1,
    save_file data markers path fs = Ok fs1
    /\ fs1 !! path
       = Some (yaml_dump final
               ++ Merge.dashes ++ [LF; LF] ++ markers ++ [LF; LF]
               ++ Merge.separator ++ [LF]
               ++ Merge.extract_file_text content ++ [LF])
    /\ (forall other, other <> path -> fs1 !! other = fs !! other)
    /\ (forall k v, data !! k = Some v -> final !! k = Some v)
    /\ (forall k, data !! k = None -> final !! k = prev !! k).
Proof.
  intros Hfs Hload. exists (Merge.dict_or prev data). eexists.
  split.
  - unfold save_file, Merge.save_file, Merge.previous,
      Merge.extract_yaml_doc.
    rewrite Hfs, Hload. reflexivity.
  - cbn [fst snd]. split; [apply lookup_insert_eq|].
    split; [intros other Hne; now apply lookup_insert_ne|].
    split; intros k; [intros v|]; intros Hk;
      rewrite dict_or_lookup, Hk; reflexivity.
Qed.

(** C7. An error of the YAML loader that is neither a [ValueError] nor a
    [ScannerError], such as the [ParserError] raised for a flow sequence that
    is never closed, is not recovered: [extract_yaml_doc] raises it and
    [save_file] aborts before writing. *)
Theorem extract_yaml_doc_raises (content : str) (e : exn)
    (data : gmap K V) (markers path : str) (fs : gmap str str) :
  yaml_load_first (Merge.header_text content) = Merge.Raised e ->
  Merge.caught e = false ->
  fs !! path = Some content ->
  extract_yaml_doc content = Raise e
  /\ save_file data markers path fs = Raise e.
Proof.
  intros Hl Hc Hfs.
  assert (extract_yaml_doc content = Raise e) as Hx.
  { unfold extract_yaml_doc, Merge.extract_yaml_doc. now rewrite Hl, Hc. }
  split; [exact Hx|].
  unfold save_file, Merge.save_file, Merge.previous.
  rewrite Hfs. fold extract_yaml_doc. now rewrite Hx.
Qed.

(** What [extract_yaml_doc] does recover from: the two caught errors, a
    stream without a document and a document that is not a mapping all give
    the empty header. *)
Lemma extract_yaml_doc_recovers (content : str) :
  (forall e, yaml_load_first (Merge.header_text content) = Merge.Raised e ->
             Merge.caught e = true -> extract_yaml_doc content = Ok ∅)
  /\ (yaml_load_first (Merge.header_text content) = Merge.Loaded None ->
      extract_yaml_doc content = Ok ∅)
  /\ (yaml_load_first (Merge.header_text content)
      = Merge.Loaded (Some Merge.YOther) ->
      extract_yaml_doc content = Ok ∅).
Proof.
  unfold extract_yaml_doc, Merge.extract_yaml_doc.
  repeat split; [intros e He Hc|intros He|intros He]; rewrite He;
    [now rewrite Hc|reflexivity|reflexivity].
Qed.

End MergeFacts.

(** *** The merge engine on example documents *)

Section MergeExamples.

Let save_file := Merge.save_file FlatYaml.load_first FlatYaml.dump.
Let extract_yaml_doc := Merge.extract_yaml_doc FlatYaml.load_first.

(** C1, as stated, fails: the body after the separator line of
    [padded_note] is [" x "] and its newline, and [extract_file_text] gives
    ["x"]. *)
Lemma extract_file_text_not_verbatim :
  Spec.spec_body Examples.padded_note = [32; 120; 32; LF]
  /\ Merge.extract_file_text Examples.padded_note = [120]
  /\ Merge.extract_file_text Examples.padded_note
     <> Spec.spec_body Examples.padded_note.
Proof. repeat split. vm_compute. discriminate. Qed.

Lemma save_file_keeps_stripped_body_witness :
  Merge.extract_file_text Examples.padded_note = [120]
  /\ save_file Examples.dune_fields Render.libro Examples.note_path
       {[ Examples.note_path := Examples.padded_note ]}
     = Ok (<[Examples.note_path :=
               FlatYaml.dump (Merge.dict_or ∅ Examples.dune_fields)
               ++ Merge.dashes ++ [LF; LF] ++ Render.libro ++ [LF; LF]
               ++ Merge.separator ++ [LF] ++ [120] ++ [LF]]>
             {[ Examples.note_path := Examples.padded_note ]}).
Proof.
  apply (save_file_keeps_stripped_body FlatYaml.load_first FlatYaml.dump).
  - apply lookup_singleton_eq.
  - exact (Merge.body_after_separator [] [32; 120; 32; LF]
             (or_introl eq_refl) (not_elem_of_nil _)).
  - vm_compute. reflexivity.
Defined.

(** C2, as stated, fails: a note without separator line keeps its final
    newline in the first rewrite and loses it in the second. *)
Lemma save_file_not_idempotent :
  exists fs1,
    save_file Examples.dune_fields Render.libro Examples.note_path
      {[ Examples.note_path := Examples.plain_note ]} = Ok fs1
    /\ save_file Examples.dune_fields Render.libro Examples.note_path fs1
       <> Ok fs1.
Proof.
  eexists. split; [vm_compute; reflexivity|].
  vm_compute. discriminate.
Qed.

Lemma save_file_idempotent_witness :
  exists fs1,
    save_file Examples.dune_fields Render.libro Examples.note_path
      {[ Examples.note_path := Examples.padded_note ]} = Ok fs1
    /\ fs1 !! Examples.note_path
       = Some (Merge.document FlatYaml.dump
                 (Merge.dict_or ∅ Examples.dune_fields) Render.libro [120])
    /\ save_file Examples.dune_fields Render.libro Examples.note_path fs1
       = Ok fs1.
Proof.
  apply (save_file_idempotent FlatYaml.load_first FlatYaml.dump).
  - vm_compute. reflexivity.
  - right. vm_compute. reflexivity.
  - apply (bool_decide_unpack _). vm_compute. exact I.
  - apply (bool_decide_unpack _). vm_compute. exact I.
  - vm_compute. reflexivity.
  - apply (bool_decide_unpack _). vm_compute. exact I.
  - vm_compute. reflexivity.
Defined.

Lemma save_file_merges_header_witness :
  exists final fs1,
    save_file Examples.dune_fields Render.libro Examples.note_path
      {[ Examples.note_path := Examples.headed_note ]} = Ok fs1
    /\ fs1 !! Examples.note_path
       = Some (FlatYaml.dump final
               ++ Merge.dashes ++ [LF; LF] ++ Render.libro ++ [LF; LF]
               ++ Merge.separator ++ [LF]
               ++ Merge.extract_file_text Examples.headed_note ++ [LF])
    /\ (forall other, other <> Examples.note_path ->
          fs1 !! other
          = ({[ Examples.note_path := Examples.headed_note ]}
               : gmap str str) !! other)
    /\ (forall k v, Examples.dune_fields !! k = Some v -> final !! k = Some v)
    /\ (forall k, Examples.dune_fields !! k = None ->
          final !! k = Examples.old_header !! k).
Proof.
  apply (save_file_merges_header FlatYaml.load_first FlatYaml.dump).
  - apply lookup_singleton_eq.
  - vm_compute. reflexivity.
Defined.

(** The same run, spelled out: the rating is kept, the title is replaced,
    the body is kept. *)
Example save_file_headed_note :
  save_file Examples.dune_fields Render.libro Examples.note_path
    {[ Examples.note_path := Examples.headed_note ]}
  = Ok {[ Examples.note_path := Examples.merged_note ]}.
Proof. vm_compute. reflexivity. Qed.

Lemma extract_yaml_doc_raises_witness :
  extract_yaml_doc Examples.broken_note = Raise ParserError
  /\ save_file Examples.dune_fields Render.libro Examples.note_path
       {[ Examples.note_path := Examples.broken_note ]}
     = Raise ParserError.
Proof.
  apply (extract_yaml_doc_raises FlatYaml.load_first FlatYaml.dump).
  - vm_compute. reflexivity.
  - reflexivity.
  - apply lookup_singleton_eq.
Defined.

End MergeExamples.

(** ** Record extractor *)

Section ExtractFacts.

Variable html_text : str -> str.
Variable int : str -> option Z.
Variable float : str -> option Book.float.
Variable strptime : str -> option Datetime.datetime.

Let parse_item := Extract.parse_item html_text.
Let parse_list := Extract.parse_list html_text int float strptime.

Lemma first_such_skip {A} (p : A -> bool) (pre : list A) (x : A)
    (rest : list A) :
  Forall (fun e => p e = false) pre -> p x = true ->
  Extract.first_such p (pre ++ x :: rest) = (Some x, rest).
Proof.
  intros Hpre Hx. induction Hpre as [|e pre He _ IH]; simpl.
  - now rewrite Hx.
  - now rewrite He.
Qed.

(** C4 (amended). After the opening start of an item, [parse_item] works
    through the events up to the next event of any kind whose name is
    [item], the end of the item itself included; that event is consumed with
    them and the events after it are left in the stream. *)
Theorem parse_item_stops_at_item_name (pre : list Extract.Event)
    (start : Extract.Event) (body : list Extract.Event)
    (boundary : Extract.Event) (rest : list Extract.Event) :
  Forall (fun e => str_eqb (Extract.name e) Extract.item_tag
                   && Extract.is_start e = false) pre ->
  Extract.name start = Extract.item_tag ->
  Extract.is_start start = true ->
  Forall (fun e => Extract.name e <> Extract.item_tag) body ->
  Extract.name boundary = Extract.item_tag ->
  parse_item (pre ++ start :: body ++ boundary :: rest)
  = (snd (fold_left (Extract.parse_item_step html_text) body (None, ∅)),
     rest).
Proof.
  intros Hpre Hn Hs Hbody Hb. unfold parse_item, Extract.parse_item.
  rewrite (first_such_skip _ pre start) by
    (try assumption; rewrite Hn, Hs; reflexivity).
  rewrite takewhile_stop; [reflexivity| |].
  - eapply Forall_impl; [exact Hbody|]. intros e He. simpl.
    now apply negb_true_iff, str_eqb_neq.
  - rewrite Hb. reflexivity.
Qed.

Lemma parse_list_loop_book_id (fuel : nat) (events : list Extract.Event) :
  Forall (fun b => Book.book_id b <> [])
    (Extract.parse_list_loop html_text int float strptime fuel events).
Proof.
  revert events. induction fuel as [|fuel IH]; intros events; simpl.
  - constructor.
  - destruct events as [|event events]; [constructor|].
    destruct (_ && _); [constructor|].
    destruct (Extract.parse_item html_text events) as [item events'].
    destruct (Extract.get item Extract.book_id_key) as [|c s] eqn:E; simpl.
    + apply IH.
    + constructor; [|apply IH].
      simpl. change (Extract.getitem item (Some (of_string "book_id")))
        with (Extract.get item Extract.book_id_key).
      rewrite E. discriminate.
Qed.

(** Every book that [parse_list] yields has a [book_id] that is not empty. *)
Lemma parse_list_book_id (events : list Extract.Event) :
  Forall (fun b => Book.book_id b <> []) (parse_list events).
Proof. apply parse_list_loop_book_id. Qed.

(** C9. On a feed whose three items follow each other without white space,
    the event with which the second item starts is drawn by the outer loop
    of [parse_list], [parse_item] then skips to the start of the third item,
    and the second book is lost although its [book_id] is not empty. *)
Theorem parse_list_drops_adjacent_item :
  html_text [49] = [49] -> html_text [51] = [51] ->
  map Book.book_id (parse_list Examples.dense_feed) = [[49]; [51]].
Proof.
  intros H1 H3. unfold parse_list, Extract.parse_list.
  vm_compute. rewrite H1. vm_compute. rewrite H3. reflexivity.
Qed.

End ExtractFacts.

(** C4, as stated, fails: the end of the item is the boundary, it is
    consumed, and the events left start with the text after it; stopping
    before the next start of an item leaves other events and another item. *)
Lemma parse_item_stops_at_end_event :
  snd (Extract.parse_item Examples.plain_text Examples.one_item_then_next)
  = [Examples.Text " "; Examples.Start "item"; Examples.Start "book_id"]
  /\ snd (Spec.spec_parse_item Examples.plain_text Examples.one_item_then_next)
     = [Examples.Start "item"; Examples.Start "book_id"]
  /\ Extract.parse_item Examples.plain_text Examples.one_item_then_next
     <> Spec.spec_parse_item Examples.plain_text Examples.one_item_then_next.
Proof.
  split; [reflexivity|]. split; [reflexivity|].
  intros E. apply (f_equal snd) in E. vm_compute in E. discriminate E.
Qed.

Lemma parse_item_stops_at_item_name_witness :
  Extract.parse_item Examples.plain_text
    ([Examples.StartDocument; Examples.Start "rss"]
     ++ Examples.Start "item"
     :: [Examples.Start "book_id"; Examples.Text "1"; Examples.End_ "book_id"]
     ++ Examples.End_ "item" :: [Examples.Text " "; Examples.Start "item"])
  = (snd (fold_left (Extract.parse_item_step Examples.plain_text)
            [Examples.Start "book_id"; Examples.Text "1";
             Examples.End_ "book_id"] (None, ∅)),
     [Examples.Text " "; Examples.Start "item"]).
Proof.
  apply (parse_item_stops_at_item_name Examples.plain_text).
  - repeat constructor.
  - reflexivity.
  - reflexivity.
  - repeat constructor; discriminate.
  - reflexivity.
Defined.

Lemma parse_list_drops_adjacent_item_witness :
  map Book.book_id
    (Extract.parse_list Examples.plain_text (fun _ => None) (fun _ => None)
       (fun _ => None) Examples.dense_feed)
  = [[49]; [51]].
Proof.
  apply (parse_list_drops_adjacent_item Examples.plain_text);
    reflexivity.
Defined.

(** With white space between the items every item is read; the one without
    [book_id] text is dropped and the other two are kept in order. *)
Example parse_list_spaced_feed :
  map Book.book_id
    (Extract.parse_list Examples.plain_text (fun _ => None) (fun _ => None)
       (fun _ => None) Examples.spaced_feed)
  = [[49]; [51]].
Proof. vm_compute. reflexivity. Qed.

(** ** ISO text of a [datetime] *)

Section DatetimeFacts.
Import Datetime.

Lemma is_digit_digit (x : N) : is_digit (digit (x mod 10)) = true.
Proof.
  unfold is_digit, digit.
  assert (x mod 10 < 10) as Hx by (apply N.mod_lt; discriminate).
  revert Hx. generalize (x mod 10). intros d Hd.
  apply andb_true_iff; split; apply N.leb_le; lia.
Qed.

Lemma digit_value (x : N) : digit (x mod 10) - 48 = x mod 10.
Proof. unfold digit. generalize (x mod 10). intros d. lia. Qed.

Lemma digits_value_app (acc : N) (s t : str) :
  digits_value acc (s ++ t)
  = match digits_value acc s with
    | Some v => digits_value v t
    | None => None
    end.
Proof.
  revert acc; induction s as [|c s IH]; intros acc; simpl; [reflexivity|].
  destruct (is_digit c); [apply IH|reflexivity].
Qed.

Lemma length_zfill (w : nat) (n : N) : length (zfill w n) = w.
Proof.
  revert n; induction w as [|w IH]; intros n; simpl; [reflexivity|].
  rewrite length_app, IH. simpl. lia.
Qed.

Lemma digits_value_zfill (w : nat) (acc n : N) :
  digits_value acc (zfill w n)
  = Some (acc * 10 ^ N.of_nat w + n mod 10 ^ N.of_nat w).
Proof.
  revert acc n; induction w as [|w IH]; intros acc n.
  - simpl. rewrite N.mod_1_r. f_equal. lia.
  - cbn [zfill]. rewrite digits_value_app, IH. cbn [digits_value].
    rewrite is_digit_digit, digit_value. f_equal.
    rewrite Nat2N.inj_succ, N.pow_succ_r'.
    rewrite (N.Div0.mod_mul_r n 10 (10 ^ N.of_nat w)). ring.
Qed.

Lemma int_digits_zfill (w : nat) (n : N) :
  w <> O -> n < 10 ^ N.of_nat w -> int_digits (zfill w n) = Some n.
Proof.
  intros Hw Hn. unfold int_digits.
  destruct (zfill w n) as [|c s] eqn:E.
  - apply (f_equal length) in E. rewrite length_zfill in E. simpl in E. lia.
  - rewrite <- E, digits_value_zfill. f_equal. rewrite N.mod_small by exact Hn.
    lia.
Qed.

Lemma int_digits2 (n : N) :
  n < 100 -> int_digits (zfill 2 n) = Some n.
Proof. intros Hn. now apply int_digits_zfill. Qed.

(** The characters of a number are neither signs nor separators. *)
Lemma zfill_chars (P : N -> Prop) (w : nat) (n : N) :
  (forall x, P (digit (x mod 10))) -> Forall P (zfill w n).
Proof.
  intros HP. revert n; induction w as [|w IH]; intros n; simpl.
  - constructor.
  - apply Forall_app; split; [apply IH|]. repeat constructor. apply HP.
Qed.

Lemma digit_not (c : N) (x : N) :
  (c <? 48) = true -> digit (x mod 10) <> c.
Proof.
  intros Hc. apply N.ltb_lt in Hc. unfold digit.
  generalize (x mod 10). intros d. lia.
Qed.















Lemma parse_isoformat_date_str (y m d : N) :
  y < 10000 -> m < 100 -> d < 100 ->
  parse_isoformat_date
    (zfill 4 y ++ [hyphen] ++ zfill 2 m ++ [hyphen] ++ zfill 2 d)
  = Some (y, m, d).
Proof.
  intros Hy Hm Hd. unfold parse_isoformat_date.
  cbn [zfill app slice take drop Nat.sub expect lookup list_lookup].
  change [digit (y / 10 / 10 / 10 mod 10); digit (y / 10 / 10 mod 10);
          digit (y / 10 mod 10); digit (y mod 10)] with (zfill 4 y).
  change [digit (m / 10 mod 10); digit (m mod 10)] with (zfill 2 m).
  change [digit (d / 10 mod 10); digit (d mod 10)] with (zfill 2 d).
  rewrite (int_digits_zfill 4 y), !int_digits2 by (assumption || discriminate).
  reflexivity.
Qed.


Lemma length_date_isoformat (d : datetime) :
  length (date_isoformat d) = 10%nat.
Proof. reflexivity. Qed.

(** The ranges [valid] checks. *)
Lemma valid_ranges (d : datetime) :
  valid d = true ->
  year d < 10000 /\ month d < 100 /\ day d < 100
  /\ hour d < 100 /\ minute d < 100 /\ second d < 100
  /\ microsecond d < 1000000
  /\ match tzinfo d with
     | Some off => (- day_us < off < day_us)%Z
     | None => True
     end.
Proof.
  unfold valid. rewrite !andb_true_iff.
  intros ((((((((((Hy1 & Hy2) & Hm1) & Hm2) & Hd1) & Hd2) & Hh) & Hmi) & Hs)
            & Hus) & Htz).
  apply N.leb_le in Hy2, Hm2, Hd2. apply N.ltb_lt in Hh, Hmi, Hs, Hus.
  assert (days_in_month (year d) (month d) <= 31) as Hdim.
  { unfold days_in_month.
    repeat match goal with |- context [if ?b then _ else _] => destruct b end;
      lia. }
  repeat split; try lia.
  destruct (tzinfo d) as [off|]; [|exact I].
  apply andb_true_iff in Htz. destruct Htz as [H1 H2].
  apply Z.ltb_lt in H1, H2. lia.
Qed.



End DatetimeFacts.

(** ** Cache snapshots *)

Section SnapshotFacts.
Import Json Cache.















End SnapshotFacts.



(** ** List renderer *)

Section RatingsFacts.
Import Datetime.

Lemma lines_line (l rest : str) :
  LF ∉ l -> lines (l ++ LF :: rest) = (l ++ [LF]) :: lines rest.
Proof.
  induction l as [|c l IH]; intros Hn; [reflexivity|].
  apply not_elem_of_cons in Hn. destruct Hn as [Hc Hl].
  assert ((c =? LF) = false) as Hc' by (apply N.eqb_neq; congruence).
  cbn [app lines]. rewrite Hc', (IH Hl). reflexivity.
Qed.












End RatingsFacts.



(** With the current directory for the books the name of the directory is
    empty, and the link starts with the slash. *)
Example ratings_line_current_directory :
  Render.path_name [PyPath.dot] = []
  /\ Render.ratings_line [PyPath.dot] Examples.dune
     = of_string "- [[2018-11-30]]" ++ [32; 5159; 32]
       ++ of_string "[[/Dune|Dune]]".
Proof. split; vm_compute; reflexivity. Qed.

(** A title with a newline inside gives an entry of two lines. *)
Example ratings_list_two_line_entry :
  Book.name Examples.two_line_title
  = (of_string "Dune" ++ [LF] ++ of_string "Messiah")
  /\ lines (Render.ratings_list Examples.clock [Examples.two_line_title]
              Examples.books_dir)
     = [ of_string "Leidos 1 libros (2024-02-29 23:59)" ++ [LF];
         [LF];
         of_string "- [[2018-11-30]]" ++ [32; 5159; 32]
         ++ of_string "[[Libros/Dune" ++ [LF];
         of_string "Messiah|Dune" ++ [LF];
         of_string "Messiah]]" ++ [LF] ].
Proof. split; vm_compute; reflexivity. Qed.

(** ** Cache gate *)

Section GateFacts.
Import Json Cache.

Variable html_text : str -> str.
Variable int : str -> option Z.
Variable float : str -> option Book.float.
Variable strptime : str -> option Datetime.datetime.
Variable requests_get : str -> nat -> result str.
Variable pulldom_parse : str -> result (list Extract.Event).

Let get_page := get_page html_text int float strptime requests_get pulldom_parse.
Let get_pages_from :=
  get_pages_from html_text int float strptime requests_get pulldom_parse.
Let get_pages := get_pages html_text int float strptime requests_get pulldom_parse.
Let get_list := get_list html_text int float strptime requests_get pulldom_parse.

(** Fetching pages touches neither snapshots nor documents, and only adds
    to the log of requests. *)
Lemma get_pages_from_frame (fuel : nat) (url : str) (page : nat)
    (all_books : list Book.Book) (w w' : world)
    (r : result (list Book.Book)) :
  get_pages_from fuel url page all_books w = Some (r, w') ->
  cache w' = cache w /\ docs w' = docs w
  /\ exists more, requests w' = requests w ++ (url, page) :: more.
Proof.
  revert page all_books w. induction fuel as [|fuel IH];
    intros page all_books w Hrun; [discriminate|].
  cbn [get_pages_from Cache.get_pages_from] in Hrun.
  unfold Cache.get_page in Hrun.
  destruct (_ ≫= _) as [[|book books]|e] in Hrun.
  - injection Hrun as <- <-. cbn. eauto.
  - apply IH in Hrun. cbn in Hrun. destruct Hrun as (Hc & Hd & more & Hr).
    repeat split; try assumption. rewrite Hr, <- app_assoc. cbn. eauto.
  - injection Hrun as <- <-. cbn. eauto.
Qed.

Lemma world_eta (w : world) :
  {| cache := cache w; docs := docs w; requests := requests w |} = w.
Proof. destruct w; reflexivity. Qed.

(** A snapshot that holds a collection with at least one book is returned
    without any request. *)
Lemma get_list_hit (fuel : nat) (now : Datetime.datetime)
    (url id data_dir : str) (w : world) (book : Book.Book)
    (books : list Book.Book) :
  get_cached now id data_dir (cache w) = Ok (Some (book :: books)) ->
  get_list fuel now url id data_dir w = Some (Ok (book :: books), w).
Proof.
  intros Hc. unfold get_list, Cache.get_list. now rewrite Hc.
Qed.

(** Without a snapshot the driver runs and its result is stored. *)
Lemma get_list_miss (fuel : nat) (now : Datetime.datetime)
    (url id data_dir : str) (w w' : world) (books : list Book.Book) :
  cache w !! get_cache_file now id data_dir = None ->
  get_pages fuel url w = Some (Ok books, w') ->
  get_list fuel now url id data_dir w
  = Some (Ok books,
          {| cache := <[get_cache_file now id data_dir := dump_books books]>
                        (cache w);
             docs := docs w'; requests := requests w' |}).
Proof.
  intros Hnone Hrun. unfold get_list, Cache.get_list, get_cached.
  rewrite Hnone. fold get_pages. rewrite Hrun.
  destruct (get_pages_from_frame _ _ _ _ _ _ _ Hrun) as (Hc & _ & _).
  unfold set_cached. rewrite Hc, Hnone. reflexivity.
Qed.

(** C5. A snapshot that exists and holds the empty list does not stop the
    driver: [get_list] tests the loaded list for truth, fetches the pages
    again (at least one request is made), leaves the snapshot as it is and
    returns what was fetched. *)
Theorem get_list_refetches_empty_snapshot (fuel : nat)
    (now : Datetime.datetime) (url id data_dir : str) (w w' : world)
    (books : list Book.Book) :
  cache w !! get_cache_file now id data_dir = Some (JArr []) ->
  get_pages fuel url w = Some (Ok books, w') ->
  get_list fuel now url id data_dir w = Some (Ok books, w')
  /\ cache w' = cache w
  /\ exists more, requests w' = requests w ++ (url, 1%nat) :: more.
Proof.
  intros Hsnap Hrun.
  destruct (get_pages_from_frame _ _ _ _ _ _ _ Hrun) as (Hc & Hd & Hr).
  repeat split; try assumption.
  unfold get_list, Cache.get_list, get_cached. rewrite Hsnap.
  cbn [load_books mapM mbind result_bind mret result_ret].
  fold get_pages. rewrite Hrun. unfold set_cached. rewrite Hc, Hsnap.
  rewrite <- Hc. now rewrite world_eta.
Qed.

End GateFacts.

Lemma get_list_refetches_empty_snapshot_witness :
  exists books w',
    books <> []
    /\ Cache.get_list Examples.plain_text Examples.no_value Examples.no_value
         Examples.no_value Examples.site_get Examples.site_parse 5
         Examples.clock Examples.feed_url Examples.read_id Examples.data_dir
         Examples.empty_snapshot_world
       = Some (Ok books, w')
    /\ Cache.cache w' = Cache.cache Examples.empty_snapshot_world
    /\ exists more,
         Cache.requests w'
         = Cache.requests Examples.empty_snapshot_world
           ++ (Examples.feed_url, 1%nat) :: more.
Proof.
  eexists. eexists. split; [|
    apply (get_list_refetches_empty_snapshot Examples.plain_text
             Examples.no_value Examples.no_value Examples.no_value
             Examples.site_get Examples.site_parse 5);
    [ apply lookup_singleton_eq | vm_compute; reflexivity ] ].
  discriminate.
Defined.

(** ** Rendering a list *)

Section RenderFacts.
Import Json Cache Render.

Variable html_text : str -> str.
Variable int : str -> option Z.
Variable float : str -> option Book.float.
Variable strptime : str -> option Datetime.datetime.
Variable requests_get : str -> nat -> result str.
Variable pulldom_parse : str -> result (list Extract.Event).
Variable yaml_load_first : str -> Merge.load_outcome (K:=str) (V:=pyval).
Variable yaml_dump : gmap str pyval -> str.

Let render_book := render_book yaml_load_first yaml_dump.
Let render_books := render_books yaml_load_first yaml_dump.
Let render_list :=
  render_list html_text int float strptime requests_get pulldom_parse
    yaml_load_first yaml_dump.





End RenderFacts.



(** * Further properties *)

(** ** The document key of a book *)

Section NameFacts.

Lemma split_head_Forall (P : N -> Prop) (d : N) (s : str) :
  Forall P s -> Forall P (Book.split_head d s).
Proof.
  intros Hs. induction Hs as [|c s Hc _ IH]; simpl; [constructor|].
  destruct (c =? d); [constructor|]. now constructor.
Qed.

Lemma split_head_without (d : N) (s : str) :
  Forall (fun c => c <> d) (Book.split_head d s).
Proof.
  induction s as [|c s IH]; simpl; [constructor|].
  destruct (c =? d) eqn:E; [constructor|].
  apply N.eqb_neq in E. now constructor.
Qed.

Lemma translate_chars (s : str) :
  Forall (fun c => c <> 40) s ->
  Forall (fun c => c <> 58 /\ c <> 40 /\ c <> 47 /\ c <> 92)
    (Book.translate s).
Proof.
  intros Hs. unfold Book.translate.
  induction Hs as [|c s Hc _ IH]; simpl; [constructor|].
  apply Forall_app; split; [|exact IH]. unfold Book.table.
  destruct (c =? 58) eqn:E1; [constructor|].
  destruct (c =? 47) eqn:E2; [repeat constructor; discriminate|].
  destruct (c =? 92) eqn:E3; [constructor|].
  apply N.eqb_neq in E1, E2, E3. repeat constructor; assumption.
Qed.

Lemma lstrip_Forall (P : N -> Prop) (s : str) :
  Forall P s -> Forall P (lstrip s).
Proof.
  intros Hs. induction Hs as [|c s Hc Hs IH]; simpl; [constructor|].
  destruct (isspace c); [exact IH|now constructor].
Qed.

Lemma strip_Forall (P : N -> Prop) (s : str) :
  Forall P s -> Forall P (strip s).
Proof.
  intros Hs. unfold strip, rstrip.
  apply Forall_rev, lstrip_Forall, Forall_rev, lstrip_Forall, Hs.
Qed.

(** X1. The name of a book, used as the file name of its document, holds no
    colon, opening parenthesis, slash or backslash, and has no white space
    at either end. *)
Theorem book_name_is_safe (book : Book.Book) :
  Forall (fun c => c <> 58 /\ c <> 40 /\ c <> 47 /\ c <> 92) (Book.name book)
  /\ strip (Book.name book) = Book.name book.
Proof.
  unfold Book.name. cbn [fold_left]. split; [|apply strip_idem].
  apply strip_Forall, translate_chars, split_head_without.
Qed.

End NameFacts.

(** ** Books built from items *)

Section NormalizerFacts.

Variable html_text : str -> str.
Variable int : str -> option Z.
Variable float : str -> option Book.float.
Variable strptime : str -> option Datetime.datetime.

Let from_goodreads := Extract.from_goodreads int float strptime.
Let parse_item := Extract.parse_item html_text.
Let parse_list := Extract.parse_list html_text int float strptime.
Let step := Extract.parse_item_step html_text.

(** X2. The optional fields of a book. The ISBN is the stripped [isbn] field
    and is absent exactly when that is empty; the read date is the first of
    [pubDate], [user_date_added] and [user_date_created] that parses, and is
    absent exactly when none does. *)
Theorem from_goodreads_optional_fields (entry : Extract.item_dict) :
  let book := from_goodreads entry in
  (match Book.isbn book with
   | Some s => s = strip (Feed.entry_field entry "isbn") /\ s <> [] /\ strip s = s
   | None => strip (Feed.entry_field entry "isbn") = []
   end)
  /\ Book.read_date book
     = head (omap strptime [Feed.entry_field entry "pubDate";
                            Feed.entry_field entry "user_date_added";
                            Feed.entry_field entry "user_date_created"])
  /\ (Book.read_date book = None <->
      strptime (Feed.entry_field entry "pubDate") = None
      /\ strptime (Feed.entry_field entry "user_date_added") = None
      /\ strptime (Feed.entry_field entry "user_date_created") = None).
Proof.
  cbn zeta. unfold from_goodreads, Extract.from_goodreads, Feed.entry_field.
  cbn [Book.isbn Book.read_date]. unfold Extract.to_date.
  split; [|split].
  - destruct (strip _) as [|c s] eqn:E; cbn [nonempty]; [reflexivity|].
    repeat split; [discriminate|]. rewrite <- E. apply strip_idem.
  - cbn [omap list_omap]. 
    destruct (strptime _), (strptime _), (strptime _); reflexivity.
  - destruct (strptime _), (strptime _), (strptime _); cbn;
      split; try discriminate; try tauto;
      intros (H1 & H2 & H3); discriminate.
Qed.




End NormalizerFacts.

(** ** Items built from events *)

Section ItemFacts.

Variable html_text : str -> str.
Variable int : str -> option Z.
Variable float : str -> option Book.float.
Variable strptime : str -> option Datetime.datetime.

Let parse_item := Extract.parse_item html_text.
Let parse_list := Extract.parse_list html_text int float strptime.
Let step := Extract.parse_item_step html_text.
Let chunk_books := Feed.chunk_books html_text int float strptime.

Lemma getitem_insert (item : Extract.item_dict) (key : option str) (v : str) :
  Extract.getitem (<[key := v]> item) key = v.
Proof. unfold Extract.getitem. now rewrite lookup_insert_eq. Qed.

(** Text events inside an element add to the value of its name. *)
Lemma fold_texts (n : str) (texts : list Extract.Event)
    (item : Extract.item_dict) :
  n <> [] ->
  Forall (fun e => Extract.ev_status e = Extract.CHARACTERS) texts ->
  exists item',
    fold_left step texts (Some n, item) = (Some n, item')
    /\ Extract.getitem item' (Some n)
       = Extract.getitem item (Some n) ++ concat (map Extract.value texts)
    /\ forall v, <[Some n := v]> item' = <[Some n := v]> item.
Proof.
  intros Hn Htexts. revert item.
  induction Htexts as [|e texts He _ IH]; intros item.
  - exists item. cbn. now rewrite app_nil_r.
  - cbn [fold_left]. unfold step at 2, Extract.parse_item_step.
    unfold Extract.is_start, Extract.is_text. rewrite He.
    cbn [bool_decide decide_rel]. 
    rewrite bool_decide_eq_false_2 by discriminate.
    rewrite bool_decide_eq_true_2 by reflexivity.
    destruct n as [|c n]; [contradiction|]. cbn [Extract.truthy andb].
    destruct (IH (<[Some (c :: n) :=
                      Extract.getitem item (Some (c :: n)) ++ Extract.value e]>
                    item)) as (item' & Hfold & Hget & Hins).
    exists item'. split; [exact Hfold|]. split.
    + rewrite Hget, getitem_insert. cbn [map concat]. now rewrite app_assoc.
    + intros v. rewrite Hins. apply insert_insert_eq.
Qed.

(** X4. One element of an item: its text, which may come in several text
    events, is added to the value the item already has under the name of the
    element, and the end event stores that text stripped and cleaned. A
    second element of the same name thus continues the cleaned value of the
    first instead of replacing it. The name on the end event is not
    looked at. *)
Theorem parse_item_element (start : Extract.Event)
    (texts : list Extract.Event) (stop : Extract.Event)
    (current_name : option str) (item : Extract.item_dict) :
  Extract.ev_status start = Extract.START_ELEMENT ->
  Extract.name start <> [] ->
  Forall (fun e => Extract.ev_status e = Extract.CHARACTERS) texts ->
  Extract.ev_status stop = Extract.END_ELEMENT ->
  fold_left step (start :: texts ++ [stop]) (current_name, item)
  = (None,
     <[Some (Extract.name start) :=
         html_text (strip (Extract.getitem item (Some (Extract.name start))
                           ++ concat (map Extract.value texts)))]> item).
Proof.
  intros Hstart Hname Htexts Hstop.
  cbn [fold_left]. unfold step at 2, Extract.parse_item_step.
  unfold Extract.is_start. rewrite Hstart.
  rewrite bool_decide_eq_true_2 by reflexivity.
  rewrite fold_left_app.
  destruct (fold_texts (Extract.name start) texts item Hname Htexts)
    as (item' & Hfold & Hget & Hins).
  rewrite Hfold. cbn [fold_left]. unfold step, Extract.parse_item_step.
  unfold Extract.is_start, Extract.is_text, Extract.is_end. rewrite Hstop.
  rewrite !bool_decide_eq_false_2 by discriminate.
  rewrite bool_decide_eq_true_2 by reflexivity. cbn [andb].
  now rewrite Hget, Hins.
Qed.

Lemma first_such_none {A} (p : A -> bool) (events : list A) :
  Forall (fun e => p e = false) events ->
  Extract.first_such p events = (None, []).
Proof.
  intros Hall. induction Hall as [|e events He _ IH]; simpl; [reflexivity|].
  now rewrite He.
Qed.

Lemma parse_item_no_start (events : list Extract.Event) :
  Forall (fun e => Feed.is_start_item e = false) events ->
  parse_item events = (∅, []).
Proof.
  intros Hall. unfold parse_item, Extract.parse_item.
  now rewrite (first_such_none
                 (fun e => str_eqb (Extract.name e) Extract.item_tag
                           && Extract.is_start e) events Hall).
Qed.

Lemma parse_list_loop_nil (fuel : nat) :
  Extract.parse_list_loop html_text int float strptime fuel [] = [].
Proof. destruct fuel; reflexivity. Qed.

(** X5. A stream without the start of an item: [parse_item] returns an empty
    item and leaves nothing in the stream, and [parse_list] yields no book,
    which is what ends the pagination. *)
Theorem parse_list_without_items (events : list Extract.Event) :
  Forall (fun e => Feed.is_start_item e = false) events ->
  parse_item events = (∅, []) /\ parse_list events = [].
Proof.
  intros Hall. split; [now apply parse_item_no_start|].
  unfold parse_list, Extract.parse_list.
  destruct Hall as [|event events He Hall]; [reflexivity|].
  cbn [length Extract.parse_list_loop].
  destruct (_ && _); [reflexivity|].
  fold parse_item. rewrite (parse_item_no_start _ Hall).
  cbn. apply parse_list_loop_nil.
Qed.

Lemma parse_item_chunk (c : Feed.chunk) (rest : list Extract.Event) :
  Feed.well_spaced c ->
  parse_item (Feed.skipped c ++ Feed.opening c :: Feed.fields c
              ++ Feed.closing c :: rest)
  = (Feed.chunk_item html_text c, rest).
Proof.
  intros (_ & Hskip & Hopen & Hfields & Hclose).
  unfold parse_item, Extract.parse_item.
  rewrite (first_such_skip
             (fun e => str_eqb (Extract.name e) Extract.item_tag
                       && Extract.is_start e) _ _ _ Hskip Hopen).
  rewrite takewhile_stop; [reflexivity| |].
  - eapply Forall_impl; [exact Hfields|]. intros e He. cbn.
    now apply negb_true_iff, str_eqb_neq.
  - now rewrite Hclose.
Qed.

Lemma parse_list_loop_chunks (chunks : list Feed.chunk)
    (tail : list Extract.Event) (fuel : nat) :
  Forall Feed.well_spaced chunks ->
  Forall (fun e => Feed.is_start_item e = false) (drop 1 tail) ->
  (length (concat (map Feed.chunk_events chunks) ++ tail) <= fuel)%nat ->
  Extract.parse_list_loop html_text int float strptime fuel
    (concat (map Feed.chunk_events chunks) ++ tail)
  = concat (map chunk_books chunks).
Proof.
  intros Hchunks Htail. revert fuel.
  induction Hchunks as [|c chunks Hc _ IH]; intros fuel Hfuel.
  - cbn [map concat app]. destruct fuel as [|fuel]; [reflexivity|].
    destruct tail as [|e tail]; [reflexivity|].
    cbn [Extract.parse_list_loop]. destruct (_ && _); [reflexivity|].
    fold parse_item. change (drop 1 (e :: tail)) with tail in Htail.
    rewrite (parse_item_no_start _ Htail). cbn. apply parse_list_loop_nil.
  - cbn [map concat]. unfold Feed.chunk_events at 1.
    rewrite <- !app_assoc. cbn [app].
    destruct fuel as [|fuel].
    { cbn [map concat] in Hfuel. unfold Feed.chunk_events at 1 in Hfuel.
      cbn in Hfuel. lia. }
    cbn [Extract.parse_list_loop].
    pose proof Hc as (Hgap & _). unfold Feed.is_end_channel in Hgap.
    rewrite Hgap. fold parse_item.
    rewrite <- (app_assoc (Feed.skipped c)). cbn [app].
    rewrite <- (app_assoc (Feed.fields c)). cbn [app].
    rewrite (parse_item_chunk c _ Hc).
    assert (Extract.parse_list_loop html_text int float strptime fuel
              (concat (map Feed.chunk_events chunks) ++ tail)
            = concat (map chunk_books chunks)) as Hrest.
    { apply IH. cbn [map concat] in Hfuel.
      rewrite length_app in Hfuel. unfold Feed.chunk_events at 1 in Hfuel.
      rewrite length_app in Hfuel |- *. cbn [length] in Hfuel.
      rewrite length_app in Hfuel. lia. }
    rewrite Hrest.
    change (chunk_books c) with (Feed.chunk_books html_text int float strptime c).
    unfold Feed.chunk_books. destruct (nonempty _); reflexivity.
Qed.

(** X6. A feed in which every item start has at least one event between it
    and the end of the item before (white space, as feeds have it, or the
    first event of the document): [parse_list] yields, in order, one book
    for each item whose [book_id] is not empty and none for the others.
    What follows the last item may be anything without another item
    start. *)
Theorem parse_list_well_spaced (chunks : list Feed.chunk)
    (tail : list Extract.Event) :
  Forall Feed.well_spaced chunks ->
  Forall (fun e => Feed.is_start_item e = false) (drop 1 tail) ->
  parse_list (concat (map Feed.chunk_events chunks) ++ tail)
  = concat (map chunk_books chunks).
Proof.
  intros Hchunks Htail. unfold parse_list, Extract.parse_list.
  now apply parse_list_loop_chunks.
Qed.

End ItemFacts.

(** ** Pagination and the cache gate *)

Section PagesFacts.
Import Json Cache Commands.

Variable html_text : str -> str.
Variable int : str -> option Z.
Variable float : str -> option Book.float.
Variable strptime : str -> option Datetime.datetime.
Variable requests_get : str -> nat -> result str.
Variable pulldom_parse : str -> result (list Extract.Event).

Let page_books :=
  page_books html_text int float strptime requests_get pulldom_parse.
Let get_pages_from :=
  get_pages_from html_text int float strptime requests_get pulldom_parse.
Let get_pages := get_pages html_text int float strptime requests_get pulldom_parse.
Let get_list := get_list html_text int float strptime requests_get pulldom_parse.

Lemma after_no_requests (w : world) : after_requests w [] = w.
Proof. destruct w. unfold after_requests. cbn. now rewrite app_nil_r. Qed.

Lemma after_after (w : world) (a b : list (str * nat)) :
  after_requests (after_requests w a) b = after_requests w (a ++ b).
Proof. unfold after_requests. cbn. now rewrite app_assoc. Qed.

Lemma get_pages_from_step (fuel : nat) (url : str) (page : nat)
    (all_books : list Book.Book) (w : world) :
  get_pages_from (S fuel) url page all_books w
  = match page_books url page with
    | Raise e => Some (Raise e, after_requests w [(url, page)])
    | Ok [] => Some (Ok all_books, after_requests w [(url, page)])
    | Ok books =>
        get_pages_from fuel url (S page) (all_books ++ books)
          (after_requests w [(url, page)])
    end.
Proof. reflexivity. Qed.

(** The loop over a run of pages that all have books. *)
Lemma get_pages_from_prefix (url : str) (pages : list (list Book.Book)) :
  forall (first : nat) (all_books : list Book.Book) (w : world) (fuel : nat),
    Forall (fun books => books <> []) pages ->
    (forall i books, pages !! i = Some books ->
                     page_books url (first + i) = Ok books) ->
    get_pages_from (length pages + fuel) url first all_books w
    = get_pages_from fuel url (first + length pages)
        (all_books ++ concat pages)
        (after_requests w (page_requests url first (length pages))).
Proof.
  induction pages as [|books pages IH]; intros first all_books w fuel Hne Hp.
  - cbn. now rewrite Nat.add_0_r, app_nil_r, after_no_requests.
  - cbn [length Nat.add]. rewrite get_pages_from_step.
    pose proof (Hp 0%nat books eq_refl) as H0. rewrite Nat.add_0_r in H0.
    rewrite H0. inversion Hne as [|? ? Hb Hne']; subst.
    destruct books as [|book books]; [contradiction|].
    rewrite (IH (S first)); [| exact Hne' |].
    + rewrite after_after. cbn [concat]. rewrite <- app_assoc.
      replace (S first + length pages)%nat
        with (first + S (length pages))%nat by lia.
      reflexivity.
    + intros i bs Hi. replace (S first + i)%nat with (first + S i)%nat by lia.
      now apply Hp.
Qed.

(** X7. Pagination. When pages 1 to [n] hold books and page [n + 1] holds
    none, [get_pages] returns the books of pages 1 to [n] in page order and
    has requested exactly the pages 1 to [n + 1] of the URL, in that order;
    any fuel above [n] is enough. *)
Theorem get_pages_collects (url : str) (pages : list (list Book.Book))
    (fuel : nat) (w : world) :
  Forall (fun books => books <> []) pages ->
  (forall i books, pages !! i = Some books ->
                   page_books url (S i) = Ok books) ->
  page_books url (S (length pages)) = Ok [] ->
  (length pages < fuel)%nat ->
  get_pages fuel url w
  = Some (Ok (concat pages),
          after_requests w (page_requests url 1 (S (length pages)))).
Proof.
  intros Hne Hp Hlast Hfuel. unfold get_pages, Cache.get_pages.
  fold get_pages_from.
  replace fuel with (length pages + S (fuel - S (length pages)))%nat by lia.
  rewrite get_pages_from_prefix by assumption.
  rewrite get_pages_from_step. cbn [Nat.add]. rewrite Hlast.
  rewrite after_after. unfold page_requests at 2.
  rewrite seq_S, map_app. reflexivity.
Qed.

(** X8. A page that fails: when pages 1 to [n] hold books and the request
    or the parse of page [n + 1] raises, [get_pages] raises the same
    exception, and [get_list] on a day without snapshot passes it on:
    the books of the earlier pages are dropped and no snapshot is
    written. *)
Theorem get_list_page_failure (url id data_dir : str)
    (now : Datetime.datetime) (pages : list (list Book.Book)) (e : exn)
    (fuel : nat) (w : world) :
  Forall (fun books => books <> []) pages ->
  (forall i books, pages !! i = Some books ->
                   page_books url (S i) = Ok books) ->
  page_books url (S (length pages)) = Raise e ->
  (length pages < fuel)%nat ->
  cache w !! get_cache_file now id data_dir = None ->
  get_pages fuel url w
  = Some (Raise e,
          after_requests w (page_requests url 1 (S (length pages))))
  /\ get_list fuel now url id data_dir w
     = Some (Raise e,
             after_requests w (page_requests url 1 (S (length pages)))).
Proof.
  intros Hne Hp Hlast Hfuel Hmiss.
  assert (get_pages fuel url w
          = Some (Raise e,
                  after_requests w (page_requests url 1 (S (length pages)))))
    as Hpages.
  { unfold get_pages, Cache.get_pages. fold get_pages_from.
    replace fuel with (length pages + S (fuel - S (length pages)))%nat by lia.
    rewrite get_pages_from_prefix by assumption.
    rewrite get_pages_from_step. cbn [Nat.add]. rewrite Hlast.
    rewrite after_after. unfold page_requests at 2.
    rewrite seq_S, map_app. reflexivity. }
  split; [exact Hpages|].
  unfold get_list, Cache.get_list, get_cached. rewrite Hmiss.
  fold get_pages. now rewrite Hpages.
Qed.

(** The requests of the loop all go to its URL, and books it passes on were
    built by [parse_list]. *)
Lemma get_pages_from_log (fuel : nat) (url : str) (page : nat)
    (all_books : list Book.Book) (w w' : world)
    (r : result (list Book.Book)) :
  get_pages_from fuel url page all_books w = Some (r, w') ->
  cache w' = cache w /\ docs w' = docs w
  /\ exists more,
       requests w' = requests w ++ more
       /\ Forall (fun q => q.1 = url) more.
Proof.
  revert page all_books w. induction fuel as [|fuel IH];
    intros page all_books w Hrun; [discriminate|].
  rewrite get_pages_from_step in Hrun.
  destruct (page_books url page) as [[|book books]|e].
  - injection Hrun as <- <-. repeat split. exists [(url, page)].
    split; [reflexivity|]. now repeat constructor.
  - apply IH in Hrun. cbn in Hrun. destruct Hrun as (Hc & Hd & more & Hr & Hm).
    repeat split; try assumption. exists ((url, page) :: more).
    split; [now rewrite Hr, <- app_assoc|]. now constructor.
  - injection Hrun as <- <-. repeat split. exists [(url, page)].
    split; [reflexivity|]. now repeat constructor.
Qed.


Lemma set_cached_keeps (now : Datetime.datetime) (id data_dir : str)
    (books : list Book.Book) (files : snapshots) (key : str) (j : json) :
  files !! key = Some j ->
  set_cached now id data_dir books files !! key = Some j.
Proof.
  intros Hk. unfold set_cached.
  destruct (files !! get_cache_file now id data_dir) eqn:E; [exact Hk|].
  rewrite lookup_insert_ne; [exact Hk|]. intros <-. congruence.
Qed.

Lemma get_list_keeps (fuel : nat) (now : Datetime.datetime)
    (url id data_dir : str) (w w' : world) (r : result (list Book.Book)) :
  get_list fuel now url id data_dir w = Some (r, w') ->
  (forall key j, cache w !! key = Some j -> cache w' !! key = Some j)
  /\ docs w' = docs w
  /\ exists more,
       requests w' = requests w ++ more
       /\ Forall (fun q => q.1 = url) more.
Proof.
  unfold get_list, Cache.get_list. intros Hrun.
  assert (forall w0 : world,
             (forall key j, cache w0 !! key = Some j ->
                            cache w0 !! key = Some j)
             /\ docs w0 = docs w0
             /\ exists more,
                  requests w0 = requests w0 ++ more
                  /\ Forall (fun q : str * nat => q.1 = url) more) as Hsame.
  { intros w0. repeat split; [auto|]. exists []. now rewrite app_nil_r. }
  destruct (get_cached now id data_dir (cache w)) as [[[|book books]|]|e];
    try (injection Hrun as <- <-; apply Hsame).
  all: fold get_pages in Hrun;
    destruct (get_pages fuel url w) as [[[books'|e] w1]|] eqn:E;
    try discriminate;
    apply get_pages_from_log in E; destruct E as (Hc & Hd & Hlog);
    injection Hrun as <- <-; cbn [cache docs requests];
    (split; [|split; [exact Hd|exact Hlog]]);
    intros key j Hk; rewrite <- Hc in Hk;
    first [exact Hk | now apply set_cached_keeps].
Qed.

(** X9. What [get_list] leaves alone: a snapshot that exists keeps its
    content, whatever the day and the list it is for; no document is
    touched; and every request made goes to the URL it was given. *)
Theorem get_list_frame (fuel : nat) (now : Datetime.datetime)
    (url id data_dir : str) (w w' : world) (r : result (list Book.Book)) :
  get_list fuel now url id data_dir w = Some (r, w') ->
  (forall key j, cache w !! key = Some j -> cache w' !! key = Some j)
  /\ docs w' = docs w
  /\ exists more,
       requests w' = requests w ++ more
       /\ Forall (fun q => q.1 = url) more.
Proof. apply get_list_keeps. Qed.


End PagesFacts.

(** ** The key of a snapshot *)

Section KeyFacts.
Import Datetime Cache.

Lemma date_isoformat_inj (d d' : datetime) :
  valid d = true -> valid d' = true ->
  date_isoformat d = date_isoformat d' ->
  year d = year d' /\ month d = month d' /\ day d = day d'.
Proof.
  intros Hv Hv' Heq.
  destruct (valid_ranges d Hv) as (Hy & Hm & Hd & _).
  destruct (valid_ranges d' Hv') as (Hy' & Hm' & Hd' & _).
  pose proof (parse_isoformat_date_str _ _ _ Hy Hm Hd) as P.
  pose proof (parse_isoformat_date_str _ _ _ Hy' Hm' Hd') as P'.
  fold (date_isoformat d) in P. fold (date_isoformat d') in P'.
  rewrite Heq, P' in P. injection P as -> -> ->. auto.
Qed.

Lemma split_no_sep (s : str) : PyPath.sep ∉ s -> PyPath.split s = [s].
Proof.
  induction s as [|c s IH]; intros Hn; [reflexivity|].
  apply not_elem_of_cons in Hn. destruct Hn as [Hc Hs].
  assert ((c =? PyPath.sep) = false) as Hc' by (apply N.eqb_neq; congruence).
  cbn [PyPath.split]. now rewrite Hc', (IH Hs).
Qed.

Lemma split_app_sep (a b : str) :
  PyPath.sep ∉ a ->
  PyPath.split (a ++ PyPath.sep :: b) = a :: PyPath.split b.
Proof.
  induction a as [|c a IH]; intros Hn.
  - cbn [app PyPath.split]. now rewrite N.eqb_refl.
  - apply not_elem_of_cons in Hn. destruct Hn as [Hc Ha].
    assert ((c =? PyPath.sep) = false) as Hc'
      by (apply N.eqb_neq; congruence).
    cbn [app PyPath.split]. now rewrite Hc', (IH Ha).
Qed.

Lemma sep_not_in_zfill (w : nat) (n : N) : PyPath.sep ∉ zfill w n.
Proof.
  intros Hin. pose proof (zfill_chars (fun x => x <> PyPath.sep) w n) as Hz.
  rewrite Forall_forall in Hz.
  apply (Hz (fun x => digit_not PyPath.sep x eq_refl) PyPath.sep Hin).
  reflexivity.
Qed.

Lemma sep_not_in_date (d : datetime) : PyPath.sep ∉ date_isoformat d.
Proof.
  unfold date_isoformat.
  repeat first
    [ apply sep_not_in_zfill
    | apply not_elem_of_nil
    | apply not_elem_of_app; split
    | apply not_elem_of_cons; split; [discriminate|] ].
Qed.

(** For a list identifier without slash the path is the text as the source
    composes it. *)
Lemma get_cache_file_text (now : datetime) (id data_dir : str) :
  PyPath.sep ∉ id ->
  get_cache_file now id data_dir
  = of_string "data/books-" ++ id ++ of_string "-"
    ++ date_isoformat now ++ of_string ".json".
Proof.
  intros Hid. unfold get_cache_file.
  set (rest := id ++ of_string "-" ++ date_isoformat now ++ of_string ".json").
  assert (PyPath.sep ∉ of_string "books-" ++ rest) as Hrest.
  { subst rest. pose proof (sep_not_in_date now).
    repeat first
      [ assumption
      | apply not_elem_of_app; split
      | apply (bool_decide_unpack _); vm_compute; exact I ]. }
  change (of_string "data/books-" ++ rest)
    with (of_string "data" ++ PyPath.sep :: of_string "books-" ++ rest).
  unfold PyPath.parse.
  change (PyPath.splitroot
            (of_string "data" ++ PyPath.sep :: of_string "books-" ++ rest))
    with (@nil N,
          of_string "data" ++ PyPath.sep :: of_string "books-" ++ rest).
  cbv iota.
  rewrite split_app_sep by (apply (bool_decide_unpack _); vm_compute; exact I).
  rewrite (split_no_sep _ Hrest).
  reflexivity.
Qed.

(** X11. For list identifiers without slash, as [read] and [want] are, two
    calls share a snapshot file exactly when they are for the same
    identifier and the same calendar day: the time of day and the
    [data_dir] argument play no part in the key. *)
Theorem cache_key_same_list_same_day (now now' : datetime)
    (id id' data_dir data_dir' : str) :
  valid now = true -> valid now' = true ->
  PyPath.sep ∉ id -> PyPath.sep ∉ id' ->
  (get_cache_file now id data_dir = get_cache_file now' id' data_dir'
   <-> id = id' /\ year now = year now' /\ month now = month now'
       /\ day now = day now').
Proof.
  intros Hv Hv' Hid Hid'.
  rewrite (get_cache_file_text now id data_dir Hid),
    (get_cache_file_text now' id' data_dir' Hid').
  split.
  - intros Heq. apply app_inv_head in Heq.
    apply app_inj_2 in Heq; [|reflexivity]. destruct Heq as [-> Heq].
    split; [reflexivity|]. apply (date_isoformat_inj _ _ Hv Hv').
    apply app_inv_head in Heq. now apply app_inv_tail in Heq.
  - intros (-> & Hy & Hm & Hd). unfold date_isoformat.
    now rewrite Hy, Hm, Hd.
Qed.

End KeyFacts.

(** ** More on the merge engine *)

Section MergeMore.

Context {K V : Type} `{Countable K}.
Variable yaml_load_first : str -> Merge.load_outcome (K:=K) (V:=V).
Variable yaml_dump : gmap K V -> str.

Let extract_yaml_doc := Merge.extract_yaml_doc yaml_load_first.
Let previous := Merge.previous yaml_load_first.
Let document := Merge.document yaml_dump.
Let save_file := Merge.save_file yaml_load_first yaml_dump.

(** X12. A document that holds the separator text only as the end of a
    longer line (for instance a line of five dashes) has no separator line
    but passes the test [separator in all_text]: every line is drawn looking
    for the separator, nothing is left to read, and the body comes out
    empty. *)
Theorem extract_file_text_loses_body (content : str) :
  contains Merge.separator content = true ->
  Merge.separator ∉ lines content ->
  Merge.extract_file_text content = [].
Proof.
  intros Hc Hn. unfold Merge.extract_file_text. rewrite Hc. cbn [negb].
  rewrite takewhile_all by now apply not_separator_all. reflexivity.
Qed.

Lemma lines_whole (ls : list str) (rest : str) :
  Forall (fun l => exists t, l = t ++ [LF] /\ LF ∉ t) ls ->
  lines (concat ls ++ rest) = ls ++ lines rest.
Proof.
  intros Hls. induction Hls as [|l ls (t & -> & Ht) _ IH]; [reflexivity|].
  cbn [concat]. rewrite <- !app_assoc. cbn [app].
  now rewrite (lines_line _ _ Ht), IH.
Qed.

(** X13. What reaches the YAML loader. For a document that starts with
    whole lines, none of them the document end, followed by a document end
    line, the loader is given those lines joined by newlines, each still
    with its own newline, so a blank line is put between any two of them;
    what follows the document end line plays no part. *)
Theorem header_text_lines (ls : list str) (rest : str) :
  Forall (fun l => exists t, l = t ++ [LF] /\ LF ∉ t) ls ->
  Merge.document_end ∉ ls ->
  Merge.header_text (concat ls ++ Merge.document_end ++ rest) = join [LF] ls
  /\ extract_yaml_doc (concat ls ++ Merge.document_end ++ rest)
     = extract_yaml_doc (concat ls ++ Merge.document_end).
Proof.
  intros Hls Hn.
  assert (forall rest',
             Merge.header_text (concat ls ++ Merge.document_end ++ rest')
             = join [LF] ls) as Hh.
  { intros rest'. unfold Merge.header_text.
    rewrite (lines_whole _ _ Hls).
    rewrite (lines_app Merge.document_end) by (right; reflexivity).
    change (lines Merge.document_end) with [Merge.document_end].
    cbn [app]. rewrite takewhile_stop; [reflexivity| |].
    - apply Forall_forall. intros l Hl. apply negb_true_iff, str_eqb_neq.
      intros ->. exact (Hn Hl).
    - now rewrite str_eqb_refl. }
  split; [apply Hh|].
  unfold extract_yaml_doc, Merge.extract_yaml_doc.
  pose proof (Hh []) as H0. rewrite app_nil_r in H0.
  now rewrite Hh, H0.
Qed.

(** X14. Write, then read. After [save_file] has written a document, taking
    it apart again gives the header that was written and the body that was
    written, stripped; this needs a marker text without separator line and a
    dumped header of whole lines that ends its document, holds no separator
    line and loads back to itself. *)
Theorem save_file_read_back (data : gmap K V) (markers path : str)
    (fs : gmap str str) (prev : gmap K V) (text : str) :
  previous path fs = Ok (prev, text) ->
  closed (yaml_dump (Merge.dict_or prev data)) ->
  Merge.document_end ∈ lines (yaml_dump (Merge.dict_or prev data)) ->
  Merge.separator ∉ lines (yaml_dump (Merge.dict_or prev data)) ->
  extract_yaml_doc (yaml_dump (Merge.dict_or prev data))
  = Ok (Merge.dict_or prev data) ->
  Merge.separator ∉ lines (markers ++ [LF]) ->
  exists fs1,
    save_file data markers path fs = Ok fs1
    /\ previous path fs1 = Ok (Merge.dict_or prev data, strip text)
    /\ forall other, other <> path -> fs1 !! other = fs !! other.
Proof.
  intros Hp Hc Hend Hsep Hrt Hm.
  eexists. split; [apply (save_file_previous _ _ _ _ _ _ _ _ Hp)|].
  split; [now apply previous_of_document|].
  intros other Hne. now apply lookup_insert_ne.
Qed.

(** X15. A fresh header. When the path does not exist, or the loader finds
    no document, finds a document that is not a mapping, or raises one of
    the two exceptions that are caught, [save_file] does not fail and
    writes the new fields alone as header; the body is empty for a path that
    does not exist and the extracted text otherwise. *)
Theorem save_file_fresh_header (data : gmap K V) (markers path : str)
    (fs : gmap str str) :
  match fs !! path with
  | None => True
  | Some content =>
      match yaml_load_first (Merge.header_text content) with
      | Merge.Raised e => Merge.caught e = true
      | Merge.Loaded (Some (Merge.YDict m)) => m = ∅
      | Merge.Loaded _ => True
      end
  end ->
  save_file data markers path fs
  = Ok (<[path := document data markers
                    (match fs !! path with
                     | None => []
                     | Some content => Merge.extract_file_text content
                     end)]> fs).
Proof.
  intros Hcase.
  assert (Merge.dict_or (∅ : gmap K V) data = data) as Hdata.
  { unfold Merge.dict_or. apply (right_id_L ∅ (∪)). }
  unfold save_file, Merge.save_file, Merge.previous.
  destruct (fs !! path) as [content|].
  - unfold Merge.extract_yaml_doc.
    destruct (yaml_load_first (Merge.header_text content))
      as [[[m|]|]|e]; cbn [mbind result_bind fst snd].
    + subst m. now rewrite Hdata.
    + now rewrite Hdata.
    + now rewrite Hdata.
    + rewrite Hcase. cbn [mbind result_bind fst snd]. now rewrite Hdata.
  - cbn [mbind result_bind fst snd]. now rewrite Hdata.
Qed.

End MergeMore.

(** ** More on rendering *)

Section RenderMore.
Import Json Cache Render.

Variable html_text : str -> str.
Variable int : str -> option Z.
Variable float : str -> option Book.float.
Variable strptime : str -> option Datetime.datetime.
Variable requests_get : str -> nat -> result str.
Variable pulldom_parse : str -> result (list Extract.Event).
Variable yaml_load_first : str -> Merge.load_outcome (K:=str) (V:=pyval).
Variable yaml_dump : gmap str pyval -> str.

Let render_book := render_book yaml_load_first yaml_dump.
Let render_books := render_books yaml_load_first yaml_dump.
Let render_list :=
  render_list html_text int float strptime requests_get pulldom_parse
    yaml_load_first yaml_dump.

Lemma render_book_other (args : Args) (book : Book.Book)
    (docs docs' : gmap str str) (path : str) :
  render_book args book docs = Ok docs' ->
  path <> book_path args book ->
  docs' !! path = docs !! path.
Proof.
  unfold render_book, Render.render_book. intros Hrun Hne.
  destruct (docs !! book_path args book) as [content|].
  - destruct (book_data book) as [data|e]; [|discriminate].
    cbn [mbind result_bind] in Hrun. unfold Merge.save_file in Hrun.
    destruct (Merge.previous yaml_load_first (book_path args book) docs)
      as [prev|e]; [|discriminate].
    cbn [mbind result_bind] in Hrun. injection Hrun as <-.
    now apply lookup_insert_ne.
  - now injection Hrun as <-.
Qed.

Lemma render_books_other (args : Args) (books : list Book.Book)
    (docs docs' : gmap str str) (r : result unit) (path : str) :
  render_books args books docs = (r, docs') ->
  Forall (fun book => path <> book_path args book) books ->
  docs' !! path = docs !! path.
Proof.
  intros Hrun Hne. revert docs Hrun.
  induction Hne as [|book books Hb _ IH]; intros docs Hrun.
  - now injection Hrun as <- <-.
  - cbn [render_books Render.render_books] in Hrun.
    destruct (Render.render_book yaml_load_first yaml_dump args book docs)
      as [docs1|e] eqn:E.
    + rewrite (IH _ Hrun). now apply (render_book_other args book).
    + now injection Hrun as <- <-.
Qed.

(** X16. What rendering a list may change: the list document, and documents
    whose path is the path of a book. Every other document is after the run
    what it was before, whether the run ends well or raises. Snapshots that
    exist keep their content. *)
Theorem render_list_frame (fuel : nat) (now : Datetime.datetime)
    (url name id : str) (args : Args) (w w' : world) (r : result unit) :
  render_list fuel now url name id args w = Some (r, w') ->
  (forall path,
      path <> path_join (listas_dir args) name ->
      (forall book, path <> book_path args book) ->
      docs w' !! path = docs w !! path)
  /\ (forall key j, cache w !! key = Some j -> cache w' !! key = Some j).
Proof.
  unfold render_list, Render.render_list. intros Hrun.
  destruct (get_list _ _ _ _ _ _ fuel now url id (data_dir args) w)
    as [[[books|e] w1]|] eqn:E; [| |discriminate];
    apply get_list_keeps in E; destruct E as (Hc & Hd & _).
  - destruct (Render.render_books yaml_load_first yaml_dump args books _)
      as [r1 docs1] eqn:Eb.
    injection Hrun as <- <-. cbn [docs cache]. split; [|exact Hc].
    intros path Hlist Hbooks.
    rewrite (render_books_other _ _ _ _ _ path Eb)
      by (apply Forall_forall; intros book _; apply Hbooks).
    unfold write_ratings_list. rewrite lookup_insert_ne by congruence.
    now rewrite Hd.
  - injection Hrun as <- <-. split; [|exact Hc].
    intros path _ _. now rewrite Hd.
Qed.

Lemma render_books_app (args : Args) (pre post : list Book.Book)
    (docs docs1 : gmap str str) :
  render_books args pre docs = (Ok tt, docs1) ->
  render_books args (pre ++ post) docs = render_books args post docs1.
Proof.
  revert docs. induction pre as [|book pre IH]; intros docs Hrun.
  - now injection Hrun as <-.
  - cbn [app render_books Render.render_books] in Hrun |- *.
    destruct (Render.render_book yaml_load_first yaml_dump args book docs)
      as [docs'|e]; [now apply IH|discriminate].
Qed.

(** X17. A book without read date whose document exists stops the run with
    [AttributeError]: the documents of the books before it in the collection
    have been rewritten and stay so, its own document and those of the books
    after it are not touched. *)
Theorem render_books_stops_at_undated (args : Args)
    (pre post : list Book.Book) (book : Book.Book)
    (docs docs1 : gmap str str) :
  render_books args pre docs = (Ok tt, docs1) ->
  is_Some (docs1 !! book_path args book) ->
  Book.read_date book = None ->
  render_books args (pre ++ book :: post) docs = (Raise AttributeError, docs1).
Proof.
  intros Hpre [content Hdoc] Hdate.
  rewrite (render_books_app _ _ _ _ _ Hpre).
  cbn [render_books Render.render_books]. unfold Render.render_book.
  rewrite Hdoc. unfold book_data. rewrite Hdate. reflexivity.
Qed.

End RenderMore.

(** ** Commands *)

Section CommandFacts.
Import Json Cache Commands.

Variable html_text : str -> str.
Variable int : str -> option Z.
Variable float : str -> option Book.float.
Variable strptime : str -> option Datetime.datetime.
Variable requests_get : str -> nat -> result str.
Variable pulldom_parse : str -> result (list Extract.Event).
Variable yaml_load_first : str -> Merge.load_outcome (K:=str) (V:=pyval).
Variable yaml_dump : gmap str pyval -> str.

Let print_list :=
  print_list html_text int float strptime requests_get pulldom_parse.
Let render_list :=
  render_list html_text int float strptime requests_get pulldom_parse
    yaml_load_first yaml_dump.

Lemma print_list_requests (fuel : nat) (now : Datetime.datetime)
    (url id : str) (args : Namespace) (w w' : world) (r : result json) :
  print_list fuel now url id args w = Some (r, w') ->
  only_requests url w w'.
Proof.
  unfold print_list, Commands.print_list. intros Hrun.
  destruct (get_list _ _ _ _ _ _ fuel now url id _ w)
    as [[[books|e] w1]|] eqn:E; [| |discriminate];
    apply get_list_keeps in E; destruct E as (_ & _ & Hlog);
    injection Hrun as <- <-; exact Hlog.
Qed.

Lemma render_list_requests (fuel : nat) (now : Datetime.datetime)
    (url name id : str) (args : Namespace) (w w' : world)
    (r : result unit) :
  render_list fuel now url name id args w = Some (r, w') ->
  only_requests url w w'.
Proof.
  unfold render_list, Commands.render_list, Render.render_list. intros Hrun.
  destruct (get_list _ _ _ _ _ _ fuel now url id _ w)
    as [[[books|e] w1]|] eqn:E; [| |discriminate];
    apply get_list_keeps in E; destruct E as (_ & _ & Hlog).
  - destruct (Render.render_books _ _ _ _ _) as [r1 docs1].
    injection Hrun as <- <-. exact Hlog.
  - injection Hrun as <- <-. exact Hlog.
Qed.

(** X18. The URL each command fetches. [list read], [render read] and also
    [list want] request pages of [read_url] only, the last one storing them
    in the snapshot of the list [want]; [render want] is the one command
    that requests [want_url]. *)
Theorem commands_urls (fuel : nat) (now : Datetime.datetime)
    (args : Namespace) (w : world) :
  (forall r w',
      list_read_command html_text int float strptime requests_get
        pulldom_parse fuel now args w = Some (r, w') ->
      only_requests (read_url (config args)) w w')
  /\ (forall r w',
        list_want_command html_text int float strptime requests_get
          pulldom_parse fuel now args w = Some (r, w') ->
        only_requests (read_url (config args)) w w')
  /\ (forall r w',
        render_read_command html_text int float strptime requests_get
          pulldom_parse yaml_load_first yaml_dump fuel now args w
        = Some (r, w') ->
        only_requests (read_url (config args)) w w')
  /\ (forall r w',
        render_want_command html_text int float strptime requests_get
          pulldom_parse yaml_load_first yaml_dump fuel now args w
        = Some (r, w') ->
        only_requests (want_url (config args)) w w').
Proof.
  repeat split; intros r w' Hrun.
  - now apply (print_list_requests _ _ _ _ _ _ _ _ Hrun).
  - now apply (print_list_requests _ _ _ _ _ _ _ _ Hrun).
  - now apply (render_list_requests _ _ _ _ _ _ _ _ _ Hrun).
  - now apply (render_list_requests _ _ _ _ _ _ _ _ _ Hrun).
Qed.

(** X19. [list want] prints the read list: on a day without snapshot for
    either list, [list want] makes the same requests as [list read] and
    prints the same document. *)
Theorem list_want_prints_read_list (fuel : nat) (now : Datetime.datetime)
    (args : Namespace) (w w1 w2 : world) (r1 r2 : result json) :
  cache w !! get_cache_file now read_id (Render.data_dir (dirs args)) = None ->
  cache w !! get_cache_file now want_id (Render.data_dir (dirs args)) = None ->
  list_read_command html_text int float strptime requests_get pulldom_parse
    fuel now args w = Some (r1, w1) ->
  list_want_command html_text int float strptime requests_get pulldom_parse
    fuel now args w = Some (r2, w2) ->
  r1 = r2 /\ requests w1 = requests w2 /\ docs w1 = docs w2.
Proof.
  intros Hread Hwant.
  unfold list_read_command, list_want_command, Commands.print_list,
    get_list, get_cached.
  rewrite Hread, Hwant.
  destruct (get_pages _ _ _ _ _ _ fuel (read_url (config args)) w)
    as [[[books|e] w']|]; intros [= <- <-] [= <- <-]; auto.
Qed.

End CommandFacts.

(** ** Books and item starts *)

Section YieldFacts.

Variable html_text : str -> str.
Variable int : str -> option Z.
Variable float : str -> option Book.float.
Variable strptime : str -> option Datetime.datetime.

Let parse_list := Extract.parse_list html_text int float strptime.

Lemma first_such_starts (events : list Extract.Event) :
  Extract.first_such
    (fun e => str_eqb (Extract.name e) Extract.item_tag && Extract.is_start e)
    events = (None, [])
  \/ (Feed.item_starts events
      = S (Feed.item_starts
             (snd (Extract.first_such
                     (fun e => str_eqb (Extract.name e) Extract.item_tag
                               && Extract.is_start e) events))))%nat.
Proof.
  induction events as [|e events IH]; [now left|].
  cbn [Extract.first_such Feed.item_starts]. unfold Feed.is_start_item.
  destruct (_ && _); [right; reflexivity|exact IH].
Qed.

Lemma takewhile_starts (p : Extract.Event -> bool)
    (events : list Extract.Event) :
  (Feed.item_starts (snd (takewhile p events)) <= Feed.item_starts events)%nat.
Proof.
  induction events as [|e events IH]; [reflexivity|].
  cbn [takewhile Feed.item_starts].
  destruct (p e).
  - destruct (takewhile p events). cbn [snd] in *. lia.
  - cbn [snd]. lia.
Qed.

Lemma parse_item_starts (events : list Extract.Event) :
  Extract.parse_item html_text events = (∅, [])
  \/ (S (Feed.item_starts (snd (Extract.parse_item html_text events)))
      <= Feed.item_starts events)%nat.
Proof.
  unfold Extract.parse_item.
  destruct (first_such_starts events) as [Hnone|Hsome].
  - left. now rewrite Hnone.
  - right. rewrite Hsome.
    destruct (Extract.first_such _ events) as [o rest]. cbn [snd].
    pose proof (takewhile_starts
                  (fun e => negb (str_eqb (Extract.name e) Extract.item_tag))
                  rest) as Hle.
    destruct (takewhile _ rest). cbn [snd] in *. lia.
Qed.

Lemma parse_list_loop_length (fuel : nat) (events : list Extract.Event) :
  (length (Extract.parse_list_loop html_text int float strptime fuel events)
   <= Feed.item_starts events)%nat.
Proof.
  revert events. induction fuel as [|fuel IH]; intros events; [cbn; lia|].
  destruct events as [|event events]; [cbn; lia|].
  cbn [Extract.parse_list_loop Feed.item_starts].
  generalize (if Feed.is_start_item event then 1%nat else 0%nat).
  intros first.
  destruct (_ && _); [cbn; lia|].
  destruct (parse_item_starts events) as [Hnone|Hsome].
  - rewrite Hnone. unfold Extract.get. rewrite lookup_empty.
    cbn [default nonempty negb]. rewrite parse_list_loop_nil. cbn. lia.
  - destruct (Extract.parse_item html_text events) as [item rest].
    cbn [snd] in Hsome. specialize (IH rest).
    destruct (negb _); cbn [length]; lia.
Qed.

(** X20. What [parse_list] yields: every book has a [book_id] that is not
    empty, and there are never more books than the feed has item starts. *)
Theorem parse_list_yields (events : list Extract.Event) :
  Forall (fun b => Book.book_id b <> []) (parse_list events)
  /\ (length (parse_list events) <= Feed.item_starts events)%nat.
Proof.
  split.
  - apply parse_list_loop_book_id.
  - apply parse_list_loop_length.
Qed.

End YieldFacts.

(** ** The further properties on examples *)



(** The rating of the example page is [float('-nan')]; the snapshot gives
    back the NaN of the decoder. *)
Example dated_page_rating :
  map Book.rating
    (Extract.parse_list Examples.plain_text Examples.no_value
       More.nan_float More.one_date More.dated_page)
  = [Some More.minus_nan]
  /\ exists loaded,
       Cache.load_books
         (Cache.dump_books
            (Extract.parse_list Examples.plain_text Examples.no_value
               More.nan_float More.one_date More.dated_page))
       = Ok loaded
       /\ map Book.rating loaded = [Some Book.nan].
Proof.
  split; [vm_compute; reflexivity|].
  eexists. split; vm_compute; reflexivity.
Qed.

(** The date of the example page is read. *)
Example dated_page_read_date :
  map Book.read_date
    (Extract.parse_list Examples.plain_text Examples.no_value
       More.nan_float More.one_date More.dated_page)
  = [Some Examples.read_on].
Proof. vm_compute. reflexivity. Qed.

Lemma parse_item_element_witness :
  fold_left (Extract.parse_item_step Examples.plain_text)
    (Examples.Start "title"
     :: [Examples.Text " Du"; Examples.Text "ne "] ++ [Examples.End_ "title"])
    (None, {[ Some (of_string "title") := of_string "Old" ]})
  = (None,
     <[Some (Extract.name (Examples.Start "title")) :=
         Examples.plain_text
           (strip (Extract.getitem
                     {[ Some (of_string "title") := of_string "Old" ]}
                     (Some (Extract.name (Examples.Start "title")))
                   ++ concat (map Extract.value
                                [Examples.Text " Du"; Examples.Text "ne "])))]>
       {[ Some (of_string "title") := of_string "Old" ]}).
Proof.
  apply (parse_item_element Examples.plain_text).
  - reflexivity.
  - discriminate.
  - repeat constructor.
  - reflexivity.
Defined.

Lemma parse_list_without_items_witness :
  Extract.parse_item Examples.plain_text More.empty_page = (∅, [])
  /\ Extract.parse_list Examples.plain_text Examples.no_value
       Examples.no_value Examples.no_value More.empty_page = [].
Proof.
  apply (parse_list_without_items Examples.plain_text).
  repeat constructor.
Defined.

Lemma well_spaced_chunks :
  Forall Feed.well_spaced
    [More.first_chunk; More.second_chunk; More.third_chunk].
Proof.
  repeat constructor; discriminate.
Qed.

Lemma parse_list_well_spaced_witness :
  Extract.parse_list Examples.plain_text Examples.no_value Examples.no_value
    Examples.no_value
    (concat (map Feed.chunk_events
               [More.first_chunk; More.second_chunk; More.third_chunk])
     ++ More.feed_tail)
  = concat (map (Feed.chunk_books Examples.plain_text Examples.no_value
                   Examples.no_value Examples.no_value)
              [More.first_chunk; More.second_chunk; More.third_chunk]).
Proof.
  apply (parse_list_well_spaced Examples.plain_text).
  - exact well_spaced_chunks.
  - repeat constructor.
Defined.

(** The chunks are the feed of the examples. *)
Example spaced_feed_chunks :
  concat (map Feed.chunk_events
            [More.first_chunk; More.second_chunk; More.third_chunk])
  ++ More.feed_tail
  = Examples.spaced_feed.
Proof. reflexivity. Qed.

Lemma first_page_served (get : str -> nat -> result str) :
  get Examples.feed_url 1%nat = Ok [49] ->
  forall i books,
    [More.first_page_books] !! i = Some books ->
    Commands.page_books Examples.plain_text Examples.no_value
      Examples.no_value Examples.no_value get Examples.site_parse
      Examples.feed_url (S i) = Ok books.
Proof.
  intros Hget [|i] books Hi; [|discriminate].
  injection Hi as <-. unfold Commands.page_books. rewrite Hget. reflexivity.
Qed.

Lemma get_pages_collects_witness :
  Cache.get_pages Examples.plain_text Examples.no_value Examples.no_value
    Examples.no_value Examples.site_get Examples.site_parse 5
    Examples.feed_url More.new_world
  = Some (Ok (concat [More.first_page_books]),
          Commands.after_requests More.new_world
            (Commands.page_requests Examples.feed_url 1 2)).
Proof.
  apply (get_pages_collects Examples.plain_text Examples.no_value
           Examples.no_value Examples.no_value Examples.site_get
           Examples.site_parse Examples.feed_url [More.first_page_books]).
  - repeat constructor. vm_compute. discriminate.
  - apply first_page_served. reflexivity.
  - reflexivity.
  - simpl. lia.
Defined.

Lemma get_list_page_failure_witness :
  Cache.get_pages Examples.plain_text Examples.no_value Examples.no_value
    Examples.no_value More.failing_get Examples.site_parse 5
    Examples.feed_url More.new_world
  = Some (Raise TransportError,
          Commands.after_requests More.new_world
            (Commands.page_requests Examples.feed_url 1 2))
  /\ Cache.get_list Examples.plain_text Examples.no_value Examples.no_value
       Examples.no_value More.failing_get Examples.site_parse 5
       Examples.clock Examples.feed_url Examples.read_id Examples.data_dir
       More.new_world
     = Some (Raise TransportError,
             Commands.after_requests More.new_world
               (Commands.page_requests Examples.feed_url 1 2)).
Proof.
  apply (get_list_page_failure Examples.plain_text Examples.no_value
           Examples.no_value Examples.no_value More.failing_get
           Examples.site_parse Examples.feed_url Examples.read_id
           Examples.data_dir Examples.clock [More.first_page_books]).
  - repeat constructor. vm_compute. discriminate.
  - apply first_page_served. reflexivity.
  - reflexivity.
  - simpl. lia.
  - apply lookup_empty.
Defined.

Lemma get_list_frame_witness :
  exists r w',
    Cache.get_list Examples.plain_text Examples.no_value Examples.no_value
      Examples.no_value Examples.site_get Examples.site_parse 5
      Examples.clock Examples.feed_url Examples.read_id Examples.data_dir
      Examples.empty_snapshot_world = Some (r, w')
    /\ (forall key j,
          Cache.cache Examples.empty_snapshot_world !! key = Some j ->
          Cache.cache w' !! key = Some j)
    /\ Cache.docs w' = Cache.docs Examples.empty_snapshot_world
    /\ exists more,
         Cache.requests w'
         = Cache.requests Examples.empty_snapshot_world ++ more
         /\ Forall (fun q => q.1 = Examples.feed_url) more.
Proof.
  eexists. eexists. split; [vm_compute; reflexivity|].
  eapply (get_list_frame Examples.plain_text Examples.no_value
            Examples.no_value Examples.no_value Examples.site_get
            Examples.site_parse 5 Examples.clock Examples.feed_url
            Examples.read_id Examples.data_dir).
  vm_compute. reflexivity.
Defined.


Lemma cache_key_same_list_same_day_witness :
  Cache.get_cache_file Examples.clock Examples.read_id Examples.data_dir
  = Cache.get_cache_file Examples.read_on Commands.want_id Examples.books_dir
  <-> Examples.read_id = Commands.want_id
      /\ Datetime.year Examples.clock = Datetime.year Examples.read_on
      /\ Datetime.month Examples.clock = Datetime.month Examples.read_on
      /\ Datetime.day Examples.clock = Datetime.day Examples.read_on.
Proof.
  apply cache_key_same_list_same_day; try reflexivity;
    apply (bool_decide_unpack _); vm_compute; exact I.
Defined.

(** An identifier with a repeated slash shares its snapshot with the
    identifier written with one. *)
Example cache_key_collapses_slashes :
  of_string "a//b" <> of_string "a/b"
  /\ Cache.get_cache_file Examples.clock (of_string "a//b") Examples.data_dir
     = Cache.get_cache_file Examples.clock (of_string "a/b") Examples.data_dir.
Proof. split; [discriminate|vm_compute; reflexivity]. Qed.

Lemma extract_file_text_loses_body_witness :
  Merge.extract_file_text More.five_dashes_note = [].
Proof.
  apply extract_file_text_loses_body.
  - reflexivity.
  - apply (bool_decide_unpack _). vm_compute. exact I.
Defined.

Lemma header_text_lines_witness :
  Merge.header_text
    (concat More.header_lines ++ Merge.document_end
     ++ Merge.separator ++ of_string "notes")
  = join [LF] More.header_lines
  /\ Merge.extract_yaml_doc FlatYaml.load_first
       (concat More.header_lines ++ Merge.document_end
        ++ Merge.separator ++ of_string "notes")
     = Merge.extract_yaml_doc FlatYaml.load_first
         (concat More.header_lines ++ Merge.document_end).
Proof.
  apply (header_text_lines FlatYaml.load_first).
  - repeat constructor.
    + exists (of_string "---"). split; [reflexivity|].
      apply (bool_decide_unpack _). vm_compute. exact I.
    + exists (of_string "title: Dune"). split; [reflexivity|].
      apply (bool_decide_unpack _). vm_compute. exact I.
  - apply (bool_decide_unpack _). vm_compute. exact I.
Defined.

(** The loader of the examples is handed the header with a blank line after
    each line. *)
Example header_text_doubles_newlines :
  Merge.header_text
    (concat More.header_lines ++ Merge.document_end ++ of_string "notes")
  = of_string "---" ++ [LF; LF] ++ of_string "title: Dune" ++ [LF].
Proof. vm_compute. reflexivity. Qed.

Lemma save_file_read_back_witness :
  exists fs1,
    Merge.save_file FlatYaml.load_first FlatYaml.dump Examples.dune_fields
      Render.libro Examples.note_path
      {[ Examples.note_path := Examples.plain_note ]} = Ok fs1
    /\ Merge.previous FlatYaml.load_first Examples.note_path fs1
       = Ok (Merge.dict_or ∅ Examples.dune_fields,
             strip Examples.plain_note)
    /\ forall other,
         other <> Examples.note_path ->
         fs1 !! other
         = ({[ Examples.note_path := Examples.plain_note ]}
              : gmap str str) !! other.
Proof.
  apply (save_file_read_back FlatYaml.load_first FlatYaml.dump).
  - vm_compute. reflexivity.
  - right. vm_compute. reflexivity.
  - apply (bool_decide_unpack _). vm_compute. exact I.
  - apply (bool_decide_unpack _). vm_compute. exact I.
  - vm_compute. reflexivity.
  - apply (bool_decide_unpack _). vm_compute. exact I.
Defined.

Lemma save_file_fresh_header_witness :
  Merge.save_file FlatYaml.load_first FlatYaml.dump Examples.dune_fields
    Render.libro Examples.note_path
    {[ Examples.note_path := Examples.plain_note ]}
  = Ok (<[Examples.note_path :=
            Merge.document FlatYaml.dump Examples.dune_fields Render.libro
              (match ({[ Examples.note_path := Examples.plain_note ]}
                        : gmap str str) !! Examples.note_path with
               | None => []
               | Some content => Merge.extract_file_text content
               end)]>
          {[ Examples.note_path := Examples.plain_note ]}).
Proof.
  apply (save_file_fresh_header FlatYaml.load_first FlatYaml.dump).
  vm_compute. exact I.
Defined.

Lemma render_list_frame_witness :
  (forall path,
      path <> Render.path_join (Render.listas_dir Examples.args)
                Examples.list_name ->
      (forall book, path <> Render.book_path Examples.args book) ->
      Cache.docs Examples.first_render_result !! path
      = Cache.docs Examples.first_render_world !! path)
  /\ (forall key j,
        Cache.cache Examples.first_render_world !! key = Some j ->
        Cache.cache Examples.first_render_result !! key = Some j).
Proof.
  apply (render_list_frame Examples.plain_text Examples.no_value
           Examples.no_value Examples.no_value Examples.site_get
           Examples.site_parse Examples.no_document Examples.empty_mapping 5
           Examples.clock Examples.feed_url Examples.list_name
           Examples.read_id Examples.args Examples.first_render_world
           Examples.first_render_result (Ok tt)).
  vm_compute. reflexivity.
Defined.

Lemma render_books_stops_at_undated_witness :
  Render.render_books Examples.no_document Examples.empty_mapping
    Examples.args ([] ++ Examples.undated :: [Examples.dune])
    {[ More.solaris_path := Examples.plain_note ]}
  = (Raise AttributeError, {[ More.solaris_path := Examples.plain_note ]}).
Proof.
  apply (render_books_stops_at_undated Examples.no_document
           Examples.empty_mapping Examples.args [] [Examples.dune]
           Examples.undated).
  - reflexivity.
  - vm_compute. eauto.
  - reflexivity.
Defined.

Lemma commands_urls_witness :
  exists r w',
    Commands.list_want_command Examples.plain_text Examples.no_value
      Examples.no_value Examples.no_value Examples.site_get
      Examples.site_parse 5 Examples.clock More.namespace More.new_world
    = Some (r, w')
    /\ Commands.only_requests
         (Commands.read_url (Commands.config More.namespace))
         More.new_world w'.
Proof.
  eexists. eexists. split; [vm_compute; reflexivity|].
  destruct (commands_urls Examples.plain_text Examples.no_value
              Examples.no_value Examples.no_value Examples.site_get
              Examples.site_parse Examples.no_document
              Examples.empty_mapping 5 Examples.clock More.namespace
              More.new_world) as (_ & Hwant & _).
  eapply Hwant. vm_compute. reflexivity.
Defined.

Lemma list_want_prints_read_list_witness :
  exists r1 w1 r2 w2,
    Commands.list_read_command Examples.plain_text Examples.no_value
      Examples.no_value Examples.no_value Examples.site_get
      Examples.site_parse 5 Examples.clock More.namespace More.new_world
    = Some (r1, w1)
    /\ Commands.list_want_command Examples.plain_text Examples.no_value
         Examples.no_value Examples.no_value Examples.site_get
         Examples.site_parse 5 Examples.clock More.namespace More.new_world
       = Some (r2, w2)
    /\ r1 = r2 /\ Cache.requests w1 = Cache.requests w2
    /\ Cache.docs w1 = Cache.docs w2.
Proof.
  eexists. eexists. eexists. eexists.
  split; [vm_compute; reflexivity|]. split; [vm_compute; reflexivity|].
  eapply (list_want_prints_read_list Examples.plain_text Examples.no_value
            Examples.no_value Examples.no_value Examples.site_get
            Examples.site_parse 5 Examples.clock More.namespace
            More.new_world).
  - apply lookup_empty.
  - apply lookup_empty.
  - vm_compute. reflexivity.
  - vm_compute. reflexivity.
Defined.
